(** * A WeChat dialogue-platform webhook relay (app.py, qpp.py)

    The repository holds two variants of one Flask back end.  Both expose
    [verify_signature], [extract_user_query], [ask_openai] and the route
    handler [wechat_callback].  This development embeds the two files as
    [Module App] and [Module Qpp] over a common model of what they
    manipulate: Python values and exceptions, Flask's request object with
    its input stream, the outbound POST, and the log of the calls a handler
    performs.  The properties of the relay are then stated over the two
    modules, each against both files. *)

From Stdlib Require Import String Ascii DecimalString.
From Stdlib.Strings Require Import Byte.
From Stdlib Require Import ZArith NArith List Bool Lia PrimFloat.
Import ListNotations.

Local Open Scope list_scope.
Set Warnings "-register-all".

(** ** Python text

    A Python [str] is a sequence of Unicode code points; slicing, [len] and
    [strip] all count code points, so a string is a list of them. *)

Definition codepoint := N.
Definition pystr := list codepoint.

(** Source literals are written as UTF-8 and decoded once. *)
Fixpoint utf8_decode (bs : list N) : pystr :=
  match bs with
  | [] => []
  | b0 :: r =>
      if (b0 <? 0x80)%N then b0 :: utf8_decode r
      else if (b0 <? 0xE0)%N then
        match r with
        | b1 :: r1 =>
            N.lor (N.shiftl (N.land b0 0x1F) 6) (N.land b1 0x3F) :: utf8_decode r1
        | _ => []
        end
      else if (b0 <? 0xF0)%N then
        match r with
        | b1 :: b2 :: r2 =>
            N.lor (N.shiftl (N.land b0 0x0F) 12)
              (N.lor (N.shiftl (N.land b1 0x3F) 6) (N.land b2 0x3F)) :: utf8_decode r2
        | _ => []
        end
      else
        match r with
        | b1 :: b2 :: b3 :: r3 =>
            N.lor (N.shiftl (N.land b0 0x07) 18)
              (N.lor (N.shiftl (N.land b1 0x3F) 12)
                 (N.lor (N.shiftl (N.land b2 0x3F) 6) (N.land b3 0x3F))) :: utf8_decode r3
        | _ => []
        end
  end.

Definition u8 (s : string) : pystr :=
  utf8_decode (map Byte.to_N (list_byte_of_string s)).
Arguments u8 s%_string.

Definition pystr_eqb (a b : pystr) : bool :=
  if list_eq_dec N.eq_dec a b then true else false.

(** [str.isspace] on one code point (CPython's [_PyUnicode_IsWhitespace]). *)
Definition isspace (c : codepoint) : bool :=
  ((0x09 <=? c) && (c <=? 0x0D) || (0x1C <=? c) && (c <=? 0x20)
   || (c =? 0x85) || (c =? 0xA0) || (c =? 0x1680)
   || (0x2000 <=? c) && (c <=? 0x200A)
   || (c =? 0x2028) || (c =? 0x2029) || (c =? 0x202F) || (c =? 0x205F)
   || (c =? 0x3000))%N.

Fixpoint lstrip (s : pystr) : pystr :=
  match s with
  | c :: r => if isspace c then lstrip r else s
  | [] => []
  end.

Definition rstrip (s : pystr) : pystr := rev (lstrip (rev s)).

(** [s.strip()] *)
Definition strip (s : pystr) : pystr := rstrip (lstrip s).

(** [s[:n]] for an [int] [n], with CPython's index adjustment: a negative
    stop counts from the end, and the stop is clamped to [0 .. len(s)]. *)
Definition slice_to (s : pystr) (n : Z) : pystr :=
  let len := Z.of_nat (length s) in
  let stop := if (n <? 0)%Z then Z.max 0 (len + n) else Z.min n len in
  firstn (Z.to_nat stop) s.

(** [needle in s] *)
Fixpoint is_prefix (p s : pystr) : bool :=
  match p, s with
  | [], _ => true
  | a :: p', b :: s' => (a =? b)%N && is_prefix p' s'
  | _ :: _, [] => false
  end.

Fixpoint contains (s needle : pystr) : bool :=
  is_prefix needle s ||
  match s with
  | [] => false
  | _ :: r => contains r needle
  end.

Definition is_ascii (s : pystr) : bool := forallb (fun c => (c <? 0x80)%N) s.

(** ** Python values as [json] decodes them *)

Inductive pyval :=
| PNone
| PBool (b : bool)
| PInt (z : Z)
| PFloat (x : float)
| PStr (s : pystr)
| PList (l : list pyval)
| PDict (d : list (pystr * pyval)).

(** Truth value of an object, as [not], [or] and [if] test it. *)
Definition truthy (v : pyval) : bool :=
  match v with
  | PNone => false
  | PBool b => b
  | PInt z => negb (z =? 0)%Z
  | PFloat x => negb (PrimFloat.eqb x 0%float)
  | PStr s => match s with [] => false | _ => true end
  | PList l => match l with [] => false | _ => true end
  | PDict d => match d with [] => false | _ => true end
  end.

(** [a or b] *)
Definition py_or (a b : pyval) : pyval := if truthy a then a else b.

Definition type_name (v : pyval) : pystr :=
  match v with
  | PNone => u8 "NoneType"
  | PBool _ => u8 "bool"
  | PInt _ => u8 "int"
  | PFloat _ => u8 "float"
  | PStr _ => u8 "str"
  | PList _ => u8 "list"
  | PDict _ => u8 "dict"
  end.

(** ** Exceptions *)

Inductive exn_class :=
| AttributeError | IndexError | KeyError | TypeError
| RequestException | HTTPError | JSONDecodeError | BadRequest.

(** An exception: its class and [str(e)]. *)
Record exn := mk_exn { exn_cls : exn_class; exn_str : pystr }.

Inductive result (A : Type) :=
| Ok (a : A)
| Raise (e : exn).
Arguments Ok {A} a.
Arguments Raise {A} e.

Definition rbind {A B} (r : result A) (k : A -> result B) : result B :=
  match r with
  | Ok a => k a
  | Raise e => Raise e
  end.

Declare Scope py_scope.
Delimit Scope py_scope with py.
Notation "x <- c ;; k" := (rbind c (fun x => k))
  (at level 61, c at next level, right associativity) : py_scope.

(** ** Dictionaries and attribute access *)

Definition pydict := list (pystr * pyval).

Fixpoint lookup (d : pydict) (k : pystr) : option pyval :=
  match d with
  | [] => None
  | (k', v) :: r => if pystr_eqb k' k then Some v else lookup r k
  end.

(** [d.get(k, default)] on a dict. *)
Definition dict_get (d : pydict) (k : pystr) (default : pyval) : pyval :=
  match lookup d k with
  | Some v => v
  | None => default
  end.

Definition no_attribute (v : pyval) (name : string) : exn :=
  mk_exn AttributeError
    (u8 "'" ++ type_name v ++ u8 "' object has no attribute '" ++ u8 name ++ u8 "'").

(** [v.get(k, default)]: only a dict has the method. *)
Definition get (v : pyval) (k : pystr) (default : pyval) : result pyval :=
  match v with
  | PDict d => Ok (dict_get d k default)
  | _ => Raise (no_attribute v "get")
  end.

(** [v[0]] *)
Definition item0 (v : pyval) : result pyval :=
  match v with
  | PList (x :: _) => Ok x
  | PList [] => Raise (mk_exn IndexError (u8 "list index out of range"))
  | PStr (c :: _) => Ok (PStr [c])
  | PStr [] => Raise (mk_exn IndexError (u8 "string index out of range"))
  | PDict _ => Raise (mk_exn KeyError (u8 "0"))
  | _ => Raise (mk_exn TypeError (u8 "'" ++ type_name v ++ u8 "' object is not subscriptable"))
  end.

(** [v.strip()]: only a str has the method. *)
Definition strip_method (v : pyval) : result pystr :=
  match v with
  | PStr s => Ok (strip s)
  | _ => Raise (no_attribute v "strip")
  end.

(** ** Library functions the relay calls

    [repr] of a float as [json.dumps] prints it, [str.encode("utf-8")] of
    the configured secret (of a secret it accepts: on one with a surrogate
    code point Python raises UnicodeEncodeError, see [encodable] below),
    HMAC-SHA256 (key, message) as a 256-bit number,
    and [json.loads] on the bytes of a body (None when they are not JSON,
    as the empty body is not) are taken from the Python library as they
    are. *)

Class PyLib := {
  float_repr : float -> pystr;
  encode_utf8 : pystr -> list byte;
  hmac_sha256 : list byte -> list byte -> N;
  json_loads : list byte -> option pyval;
  json_loads_empty : json_loads [] = None
}.

(** ** [json.dumps(v, ensure_ascii=False)] *)

Definition hex_digit (n : N) : codepoint :=
  (if n <? 10 then 0x30 + n else 0x61 + (n - 10))%N.

(** The lowest [k] hexadecimal digits of [x], most significant first. *)
Fixpoint hex_fixed (k : nat) (x : N) : pystr :=
  match k with
  | O => []
  | S k' => hex_fixed k' (N.shiftr x 4) ++ [hex_digit (N.land x 0xF)]
  end.

(** One character inside a JSON string literal ([ESCAPE_DCT] of
    json.encoder). *)
Definition escape_char (c : codepoint) : pystr :=
  if (c =? 0x22)%N then [0x5C; 0x22]%N
  else if (c =? 0x5C)%N then u8 "\\"
  else if (c =? 0x08)%N then u8 "\b"
  else if (c =? 0x0C)%N then u8 "\f"
  else if (c =? 0x0A)%N then u8 "\n"
  else if (c =? 0x0D)%N then u8 "\r"
  else if (c =? 0x09)%N then u8 "\t"
  else if (c <? 0x20)%N then u8 "\u" ++ hex_fixed 4 c
  else [c].

Definition encode_basestring (s : pystr) : pystr :=
  [0x22%N] ++ flat_map escape_char s ++ [0x22%N].

Definition int_repr (z : Z) : pystr := u8 (NilZero.string_of_int (Z.to_int z)).

Section Dumps.
Context {lib : PyLib}.

Fixpoint dumps_value (v : pyval) : pystr :=
  match v with
  | PNone => u8 "null"
  | PBool true => u8 "true"
  | PBool false => u8 "false"
  | PInt z => int_repr z
  | PFloat x => float_repr x
  | PStr s => encode_basestring s
  | PList l =>
      u8 "[" ++
      (fix items (l : list pyval) : pystr :=
         match l with
         | [] => []
         | x :: r =>
             match r with
             | [] => dumps_value x
             | _ :: _ => dumps_value x ++ u8 ", " ++ items r
             end
         end) l ++ u8 "]"
  | PDict d =>
      u8 "{" ++
      (fix items (d : list (pystr * pyval)) : pystr :=
         match d with
         | [] => []
         | (k, x) :: r =>
             match r with
             | [] => encode_basestring k ++ u8 ": " ++ dumps_value x
             | _ :: _ => encode_basestring k ++ u8 ": " ++ dumps_value x ++ u8 ", " ++ items r
             end
         end) d ++ u8 "}"
  end.

Definition json_dumps (v : pyval) : pystr := dumps_value v.
End Dumps.

(** [hmac.compare_digest(a, b)] on two [str]: both must be ASCII, otherwise
    CPython raises TypeError. *)
Definition compare_digest (a b : pystr) : result bool :=
  if is_ascii a && is_ascii b then Ok (pystr_eqb a b)
  else Raise (mk_exn TypeError
                (u8 "comparing strings with non-ASCII characters is not supported")).

(** [hmac.new(key, msg, hashlib.sha256).hexdigest()]: 64 lowercase
    hexadecimal digits. *)
Definition hexdigest {lib : PyLib} (key msg : list byte) : pystr :=
  hex_fixed 64 (hmac_sha256 key msg).

(** ** The handler's effects

    A request handler returns a value or raises, and on the way performs
    calls whose order matters to the relay: decoding the body, extracting
    the query, entering the completion client, and the outbound POST.  The
    calls performed are kept in a log. *)

(** What [requests.post(url, headers=..., json=..., timeout=...)] is given. *)
Record PostCall := mk_post {
  post_url : pystr;
  post_headers : pydict;
  post_json : pyval;
  post_timeout : Z
}.

(** The [requests.Response] object, as far as the relay consults it: the
    status line and the address, which [r.raise_for_status()] reads, and
    [r.json()], the decoded body, or what requests raises when the body is
    not JSON. *)
Record Response := mk_response {
  status_code : Z;
  reason : pystr;
  url : pystr;
  r_json : result pyval
}.

(** The statuses [raise_for_status] refuses: 4xx and 5xx. *)
Definition is_error_status (code : Z) : bool := ((400 <=? code) && (code <? 600))%Z.

(** The HTTPError it raises:
    [f"{status_code} Client Error: {reason} for url: {url}"] for 4xx, and
    the same with [Server Error] for 5xx. *)
Definition http_error (r : Response) : exn :=
  mk_exn HTTPError
    (int_repr (status_code r)
     ++ (if (status_code r <? 500)%Z then u8 " Client Error: " else u8 " Server Error: ")
     ++ reason r ++ u8 " for url: " ++ url r).

(** [r.raise_for_status()]: any other status passes, 1xx and 3xx too. *)
Definition raise_for_status (r : Response) : result unit :=
  if is_error_status (status_code r) then Raise (http_error r) else Ok tt.

(** The network: what [requests.post] does with a call.  It raises on a
    timeout and on any transport error. *)
Definition requests_post_t := PostCall -> result Response.

Inductive event :=
| Ev_get_json
| Ev_extract_user_query (payload : pyval)
| Ev_ask_openai (prompt : pystr)
| Ev_requests_post (call : PostCall).

Definition M (A : Type) : Type := list event * result A.

Definition ret {A} (a : A) : M A := ([], Ok a).

Definition bind {A B} (m : M A) (k : A -> M B) : M B :=
  match m with
  | (l, Ok a) => let (l', r) := k a in (l ++ l', r)
  | (l, Raise e) => (l, Raise e)
  end.

Definition tell (e : event) : M unit := ([e], Ok tt).

Definition lift {A} (r : result A) : M A := ([], r).

(** [try: body except Exception as e: handler(e)] *)
Definition try_except {A} (body : M A) (handler : exn -> M A) : M A :=
  match body with
  | (l, Ok a) => (l, Ok a)
  | (l, Raise e) => let (l', r) := handler e in (l ++ l', r)
  end.

Declare Scope io_scope.
Delimit Scope io_scope with io.
Notation "x <- c ;; k" := (bind c (fun x => k))
  (at level 61, c at next level, right associativity) : io_scope.
Notation "c ;; k" := (bind c (fun _ => k))
  (at level 61, right associativity) : io_scope.

Definition log_of {A} (m : M A) : list event := fst m.
Definition outcome {A} (m : M A) : result A := snd m.

(** ** Flask's request and response *)

(** A request as it arrives: the bytes of its body, and its headers. *)
Record Request := mk_request {
  wire_body : list byte;
  headers : list (pystr * pystr)
}.

(** The state of Flask's request object while a view runs: the input
    stream, which can be consumed once, and the data [get_data] has
    cached. *)
Record RequestState := mk_state {
  stream : list byte;
  cached_data : option (list byte)
}.

Definition incoming (request : Request) : RequestState :=
  mk_state (wire_body request) None.

(** [request.get_data(cache=...)]: the cached data when there is some;
    otherwise it reads the stream to its end, and keeps what it read only
    when [cache] is set. *)
Definition get_data (cache : bool) (st : RequestState) : list byte * RequestState :=
  match cached_data st with
  | Some data => (data, st)
  | None => (stream st, mk_state [] (if cache then Some (stream st) else None))
  end.

(** [request.get_json(force=True, ...)] decodes what [get_data()] returns;
    None stands for the decoding error. *)
Definition get_json {lib : PyLib} (st : RequestState) : option pyval * RequestState :=
  let (data, st') := get_data true st in (json_loads data, st').

Definition lower_ascii (c : codepoint) : codepoint :=
  (if (0x41 <=? c) && (c <=? 0x5A) then c + 32 else c)%N.

(** [headers.get(name, default)]: header names compare without case. *)
Fixpoint headers_get (hs : list (pystr * pystr)) (name : pystr) (default : pystr) : pystr :=
  match hs with
  | [] => default
  | (n, v) :: r =>
      if pystr_eqb (map lower_ascii n) (map lower_ascii name) then v
      else headers_get r name default
  end.

Record HttpResponse := mk_http { body : pyval; status : Z }.

(** [jsonify(obj)] with the status Flask pairs it with (200 when the view
    returns the response alone). *)
Definition jsonify (obj : pydict) : pyval := PDict obj.

Definition str_truthy (s : pystr) : bool := truthy (PStr s).

(** The sampling temperature [0.3], as the binary64 value Python reads. *)
Definition temperature : float := 0x1.3333333333333p-2%float.

(** What a client is served when the view raises: Flask answers 500. *)
Definition served_status (m : M HttpResponse) : Z :=
  match outcome m with
  | Ok r => status r
  | Raise _ => 500
  end.

(** The completion reply is navigated as
    [resp.get("choices", [{}])[0].get("message", {}).get("content", "").strip()]. *)
Definition first_choice_content (resp : pyval) : result pystr :=
  (choices <- get resp (u8 "choices") (PList [PDict []]) ;;
   choice <- item0 choices ;;
   message <- get choice (u8 "message") (PDict []) ;;
   content <- get message (u8 "content") (PStr []) ;;
   strip_method content)%py.

(** [isinstance(c, str) and c.strip()], and the loop over the candidates. *)
Fixpoint first_candidate (candidates : list pyval) : option pystr :=
  match candidates with
  | [] => None
  | c :: rest =>
      match c with
      | PStr s => if str_truthy (strip s) then Some (strip s) else first_candidate rest
      | _ => first_candidate rest
      end
  end.

(** ** The process environment *)

Definition environ := list (pystr * pystr).

(** [os.getenv(name)]: None when the variable is not set. *)
Fixpoint getenv (env : environ) (name : pystr) : option pystr :=
  match env with
  | [] => None
  | (n, v) :: rest => if pystr_eqb n name then Some v else getenv rest name
  end.

(** [os.getenv(name, default)] *)
Definition getenv_or (env : environ) (name default : pystr) : pystr :=
  match getenv env name with
  | Some v => v
  | None => default
  end.

(** * app.py *)

Module App.

(** The configuration read from the environment at start-up. *)
Record Config := mk_config {
  OPENAI_API_KEY : pystr;
  OPENAI_MODEL : pystr;
  WEBHOOK_SECRET : pystr;
  MAX_REPLY_LEN : Z;
  REQUEST_TIMEOUT : Z
}.

Section Code.
Context {lib : PyLib}.
Variable cfg : Config.
Variable requests_post : requests_post_t.

(** Lines 38-50. *)
Definition verify_signature (raw_body : list byte) (hs : list (pystr * pystr))
  : result bool :=
  if negb (str_truthy (WEBHOOK_SECRET cfg)) then Ok true
  else
    let recv_sig := headers_get hs (u8 "X-Signature") [] in
    if negb (str_truthy recv_sig) then Ok false
    else
      let mac := hexdigest (encode_utf8 (WEBHOOK_SECRET cfg)) raw_body in
      compare_digest mac recv_sig.

(** Lines 52-68.  The list of candidates is built before the loop runs:
    each lookup is evaluated, in order, whether or not an earlier candidate
    will be chosen. *)
Definition extract_user_query (payload : pyval) : result pystr :=
  (c_query <- get payload (u8 "query") PNone ;;
   c_text <- get payload (u8 "text") PNone ;;
   c_content <- get payload (u8 "content") PNone ;;
   message <- get payload (u8 "message") PNone ;;
   c_message <- get (py_or message (PDict [])) (u8 "text") PNone ;;
   nlp <- get payload (u8 "nlpResult") PNone ;;
   c_nlp <- get (py_or nlp (PDict [])) (u8 "text") PNone ;;
   let candidates := [c_query; c_text; c_content; c_message; c_nlp] in
   match first_candidate candidates with
   | Some s => Ok s
   | None => Ok (json_dumps payload)
   end)%py.

(** The request lines 75-88 of app.py build for [requests.post]. *)
Definition completion_call (prompt : pystr) : PostCall :=
  let url := u8 "https://api.openai.com/v1/chat/completions" in
  let hdrs :=
    [(u8 "Authorization", PStr (u8 "Bearer " ++ OPENAI_API_KEY cfg));
     (u8 "Content-Type", PStr (u8 "application/json"))] in
  let data := PDict
    [(u8 "model", PStr (OPENAI_MODEL cfg));
     (u8 "messages", PList
        [PDict [(u8 "role", PStr (u8 "system"));
                (u8 "content", PStr (u8 "你是微信里的智能助手，请用简洁中文回答。"))];
         PDict [(u8 "role", PStr (u8 "user"));
                (u8 "content", PStr prompt)]]);
     (u8 "temperature", PFloat temperature)] in
  mk_post url hdrs data (REQUEST_TIMEOUT cfg).

(** Lines 70-100. *)
Definition ask_openai (prompt : pystr) : M pystr :=
  (tell (Ev_ask_openai prompt) ;;
   if negb (str_truthy (OPENAI_API_KEY cfg)) then
     ret (u8 "你说的是：" ++ prompt)
   else
     try_except
       (let call := completion_call prompt in
        tell (Ev_requests_post call) ;;
        r <- lift (requests_post call) ;;
        lift (raise_for_status r) ;;
        resp <- lift (r_json r) ;;
        ans <- lift (first_choice_content resp) ;;
        ret (if str_truthy ans then ans else u8 "（无回复）"))
       (fun e => ret (u8 "调用大模型失败：" ++ exn_str e)))%io.

(** [extract_user_query(body)[:2000]] *)
Definition user_query_of (body : pyval) : result pystr :=
  (q <- extract_user_query body ;; Ok (slice_to q 2000))%py.

(** [request.get_json(force=True, silent=True)] is None on data that is
    not JSON. *)
Definition get_json_silent (st : RequestState) : pyval :=
  match fst (get_json st) with
  | Some v => v
  | None => PNone
  end.

(** Lines 112-132.  The body is read with [get_data(cache=False)];
    [get_json(silent=True)] does not raise, so the [except] of line 119 has
    nothing to catch. *)
Definition wechat_callback (request : Request) : M HttpResponse :=
  (let (raw, st) := get_data false (incoming request) in
   ok <- lift (verify_signature raw (headers request)) ;;
   if negb ok then
     ret (mk_http (jsonify [(u8 "code", PInt 401);
                            (u8 "msg", PStr (u8 "invalid signature"))]) 401)
   else
     tell Ev_get_json ;;
     let body := py_or (get_json_silent st) (PDict []) in
     tell (Ev_extract_user_query body) ;;
     user_query <- lift (user_query_of body) ;;
     if negb (str_truthy user_query) then
       ret (mk_http (jsonify [(u8 "text", PStr (u8 "（没有拿到输入）"))]) 200)
     else
       answer <- ask_openai user_query ;;
       let answer := slice_to answer (MAX_REPLY_LEN cfg) in
       ret (mk_http (jsonify [(u8 "text", PStr answer)]) 200))%io.
End Code.

Section Startup.
(** [int(s)] of a str: the builtin, taken as it is; None stands for the
    ValueError it raises on text that is not an integer literal. *)
Variable py_int : pystr -> option Z.

(** Lines 22-26: the settings, read once when the module is imported.  The
    three texts are stripped; the two numbers go through [int], and a
    ValueError there aborts the import (None). *)
Definition load_config (env : environ) : option Config :=
  let api_key := strip (getenv_or env (u8 "OPENAI_API_KEY") []) in
  let model := strip (getenv_or env (u8 "OPENAI_MODEL") (u8 "gpt-4o-mini")) in
  let secret := strip (getenv_or env (u8 "WEBHOOK_SECRET") []) in
  match py_int (getenv_or env (u8 "MAX_REPLY_LEN") (u8 "1500")) with
  | None => None
  | Some max_reply_len =>
      match py_int (getenv_or env (u8 "REQUEST_TIMEOUT") (u8 "30")) with
      | None => None
      | Some request_timeout =>
          Some (mk_config api_key model secret max_reply_len request_timeout)
      end
  end.
End Startup.

End App.

(** * qpp.py *)

Module Qpp.

Record Config := mk_config {
  OPENAI_API_KEY : option pystr;   (* [os.getenv] without a default: None when unset *)
  WEBHOOK_SECRET : pystr
}.

Definition MODEL : pystr := u8 "gpt-4o-mini".

(** [f"{x}"] of a value that is a str or None. *)
Definition format_opt (x : option pystr) : pystr :=
  match x with
  | Some s => s
  | None => u8 "None"
  end.

Definition opt_truthy (x : option pystr) : bool :=
  match x with
  | Some s => str_truthy s
  | None => false
  end.

Section Code.
Context {lib : PyLib}.
Variable cfg : Config.
Variable requests_post : requests_post_t.

(** Lines 11-24. *)
Definition verify_signature (raw_body : list byte) (hs : list (pystr * pystr))
  : result bool :=
  if negb (str_truthy (WEBHOOK_SECRET cfg)) then Ok true
  else
    let sig := headers_get hs (u8 "X-Signature") [] in
    if negb (str_truthy sig) then Ok false
    else
      let mac := hexdigest (encode_utf8 (WEBHOOK_SECRET cfg)) raw_body in
      compare_digest mac sig.

(** The request lines 27-39 of qpp.py build for [requests.post]. *)
Definition completion_call (prompt : pystr) : PostCall :=
  let url := u8 "https://api.openai.com/v1/chat/completions" in
  let hdrs :=
    [(u8 "Authorization", PStr (u8 "Bearer " ++ format_opt (OPENAI_API_KEY cfg)));
     (u8 "Content-Type", PStr (u8 "application/json"))] in
  let payload := PDict
    [(u8 "model", PStr MODEL);
     (u8 "messages", PList
        [PDict [(u8 "role", PStr (u8 "system"));
                (u8 "content", PStr (u8 "你是微信里的智能助手，请用简洁中文回答。"))];
         PDict [(u8 "role", PStr (u8 "user"));
                (u8 "content", PStr prompt)]]);
     (u8 "temperature", PFloat temperature)] in
  mk_post url hdrs payload 30.

(** Lines 26-47. *)
Definition ask_openai (prompt : pystr) : M pystr :=
  (tell (Ev_ask_openai prompt) ;;
   try_except
     (let call := completion_call prompt in
      tell (Ev_requests_post call) ;;
      r <- lift (requests_post call) ;;
      lift (raise_for_status r) ;;
      data <- lift (r_json r) ;;
      ans <- lift (first_choice_content data) ;;
      ret (if str_truthy ans then ans else u8 "（无回复）"))
     (fun e => ret (u8 "调用大模型失败：" ++ exn_str e)))%io.

(** Lines 49-65. *)
Definition extract_user_query (body : pyval) : result pystr :=
  (c_query <- get body (u8 "query") PNone ;;
   c_text <- get body (u8 "text") PNone ;;
   c_content <- get body (u8 "content") PNone ;;
   nlp <- get body (u8 "nlpResult") PNone ;;
   c_nlp <- get (py_or nlp (PDict [])) (u8 "text") PNone ;;
   message <- get body (u8 "message") PNone ;;
   c_message <- get (py_or message (PDict [])) (u8 "text") PNone ;;
   let candidates := [c_query; c_text; c_content; c_nlp; c_message] in
   match first_candidate candidates with
   | Some s => Ok s
   | None => Ok (json_dumps body)
   end)%py.

(** [extract_user_query(body)[:2000]] *)
Definition user_query_of (body : pyval) : result pystr :=
  (q <- extract_user_query body ;; Ok (slice_to q 2000))%py.

(** [request.get_json(force=True, silent=False)] raises BadRequest on
    data that is not JSON. *)
Definition get_json_strict (st : RequestState) : result pyval :=
  match fst (get_json st) with
  | Some v => Ok v
  | None => Raise (mk_exn BadRequest (u8 "400 Bad Request"))
  end.

(** Lines 68-101.  The body is read with [get_data()], which caches it;
    a decoding error of [get_json(silent=False)] is caught and answered
    400. *)
Definition wechat_callback (request : Request) : M HttpResponse :=
  (let (raw, st) := get_data true (incoming request) in
   ok <- lift (verify_signature raw (headers request)) ;;
   if negb ok then
     ret (mk_http (jsonify [(u8 "code", PInt 401);
                            (u8 "msg", PStr (u8 "invalid signature"))]) 401)
   else
     tell Ev_get_json ;;
     match get_json_strict st with
     | Raise _ =>
         ret (mk_http (jsonify [(u8 "code", PInt 400);
                                (u8 "msg", PStr (u8 "bad json"))]) 400)
     | Ok v =>
         let body := py_or v (PDict []) in
         tell (Ev_extract_user_query body) ;;
         user_query <- lift (user_query_of body) ;;
         if negb (str_truthy user_query) then
           ret (mk_http (jsonify [(u8 "code", PInt 400);
                                  (u8 "msg", PStr (u8 "empty query"))]) 400)
         else
           answer <-
             (if negb (opt_truthy (OPENAI_API_KEY cfg)) then
                ret (u8 "未配置 OPENAI_API_KEY")
              else
                answer <- ask_openai user_query ;;
                ret (slice_to answer 1500)) ;;
           ret (mk_http
                  (jsonify [(u8 "text", PStr answer);
                            (u8 "meta", PDict [(u8 "echo", PStr user_query);
                                               (u8 "model", PStr MODEL)])])
                  200)
     end)%io.
End Code.

(** Lines 5-6: the settings, read once when the module is imported; nothing
    is stripped. *)
Definition load_config (env : environ) : Config :=
  mk_config (getenv env (u8 "OPENAI_API_KEY")) (getenv_or env (u8 "WEBHOOK_SECRET") []).

End Qpp.

(** The two files hold the same [verify_signature] over their own
    configuration; its cases are stated once, over the secret. *)
Definition verify_with {lib : PyLib} (secret : pystr) (raw : list byte)
    (hs : list (pystr * pystr)) : result bool :=
  App.verify_signature (App.mk_config [] [] secret 1500 30) raw hs.

(** * The vocabulary of the specification

    The five candidate locations of a payload, what it means for one of
    them to hold a usable text, and the classes of upstream failure. *)

Inductive location :=
| At_query | At_text | At_content | At_message_text | At_nlpResult_text.

(** The priority order the specification fixes. *)
Definition spec_order : list location :=
  [At_query; At_text; At_content; At_message_text; At_nlpResult_text].

(** The order qpp.py lists its candidates in. *)
Definition qpp_order : list location :=
  [At_query; At_text; At_content; At_nlpResult_text; At_message_text].

(** [parent.text]: absent when the parent is missing or is not an object. *)
Definition nested (d : pydict) (parent : pystr) : option pyval :=
  match lookup d parent with
  | Some (PDict m) => lookup m (u8 "text")
  | _ => None
  end.

Definition located (loc : location) (d : pydict) : option pyval :=
  match loc with
  | At_query => lookup d (u8 "query")
  | At_text => lookup d (u8 "text")
  | At_content => lookup d (u8 "content")
  | At_message_text => nested d (u8 "message")
  | At_nlpResult_text => nested d (u8 "nlpResult")
  end.

(** A value qualifies when it is a string that is not empty once trimmed;
    what it then contributes is the trimmed string. *)
Definition qualifies (v : option pyval) : option pystr :=
  match v with
  | Some (PStr s) => if str_truthy (strip s) then Some (strip s) else None
  | _ => None
  end.

Definition candidate (loc : location) (d : pydict) : option pystr :=
  qualifies (located loc d).

Fixpoint first_located (order : list location) (d : pydict) : option pystr :=
  match order with
  | [] => None
  | loc :: rest =>
      match candidate loc d with
      | Some s => Some s
      | None => first_located rest d
      end
  end.

(** The earlier candidate wins: a location that qualifies, with none
    before it in [order] qualifying, is what [extract] returns. *)
Definition earliest_wins (order : list location) (extract : pyval -> result pystr)
  : Prop :=
  forall d pre loc post s,
    order = pre ++ loc :: post ->
    (forall l, In l pre -> candidate l d = None) ->
    candidate loc d = Some s ->
    extract (PDict d) = Ok s.

(** A parent the nested lookups of the code get through: a value that is
    false, or an object. *)
Definition parent_ok (v : pyval) : bool :=
  negb (truthy v) || match v with PDict _ => true | _ => false end.

Definition parents_ok (d : pydict) : bool :=
  parent_ok (dict_get d (u8 "message") PNone)
  && parent_ok (dict_get d (u8 "nlpResult") PNone).



(** The responses of the handlers. *)
Definition reply_invalid_signature : HttpResponse :=
  mk_http (PDict [(u8 "code", PInt 401); (u8 "msg", PStr (u8 "invalid signature"))]) 401.

Definition reply_bad_json : HttpResponse :=
  mk_http (PDict [(u8 "code", PInt 400); (u8 "msg", PStr (u8 "bad json"))]) 400.

Definition app_reply (answer : pystr) : HttpResponse :=
  mk_http (PDict [(u8 "text", PStr answer)]) 200.

Definition qpp_reply (answer user_query : pystr) : HttpResponse :=
  mk_http
    (PDict [(u8 "text", PStr answer);
            (u8 "meta", PDict [(u8 "echo", PStr user_query);
                               (u8 "model", PStr (u8 "gpt-4o-mini"))])])
    200.

(** The [text] field of a JSON response. *)
Definition text_field (r : HttpResponse) : option pyval :=
  match body r with
  | PDict d => lookup d (u8 "text")
  | _ => None
  end.

Definition failure_text (e : exn) : pystr := u8 "调用大模型失败：" ++ exn_str e.

(** A text with no whitespace at its start, and with none at its end. *)
Definition starts_clean (s : pystr) : bool :=
  match s with
  | c :: _ => negb (isspace c)
  | [] => true
  end.

Definition ends_clean (s : pystr) : bool := starts_clean (rev s).

(** A text made of whitespace only. *)
Definition blank (s : pystr) : bool := forallb isspace s.

(** A text [str.encode("utf-8")] accepts: one with no surrogate code
    point.  ([os.getenv] yields surrogates for the bytes of a variable that
    are not UTF-8; on such a secret the [encode] of [verify_signature]
    raises UnicodeEncodeError.) *)
Definition encodable (s : pystr) : bool :=
  forallb (fun c => negb ((0xD800 <=? c) && (c <=? 0xDFFF)))%N s.

(** The calls of a handler run, in the one order the handlers allow: the
    body is decoded, then the query extracted, then the client entered,
    then one POST sent, the run stopping after any of them. *)
Inductive linear_log (call_for : pystr -> PostCall) : list event -> Prop :=
| Log_refused : linear_log call_for []
| Log_decoded : linear_log call_for [Ev_get_json]
| Log_extracted b : linear_log call_for [Ev_get_json; Ev_extract_user_query b]
| Log_asked b q :
    linear_log call_for [Ev_get_json; Ev_extract_user_query b; Ev_ask_openai q]
| Log_posted b q :
    linear_log call_for
      [Ev_get_json; Ev_extract_user_query b; Ev_ask_openai q;
       Ev_requests_post (call_for q)].

Definition is_post (e : event) : bool :=
  match e with
  | Ev_requests_post _ => true
  | _ => false
  end.

(** The content of the message of role [user] in the body of a POST. *)
Definition user_content (call : PostCall) : option pyval :=
  match post_json call with
  | PDict d =>
      match lookup d (u8 "messages") with
      | Some (PList [_; PDict m]) => lookup m (u8 "content")
      | _ => None
      end
  | _ => None
  end.

(** The echoed query of a JSON response. *)
Definition meta_echo (r : HttpResponse) : option pyval :=
  match body r with
  | PDict d =>
      match lookup d (u8 "meta") with
      | Some (PDict m) => lookup m (u8 "echo")
      | _ => None
      end
  | _ => None
  end.

(** The object that holds the text [s] at one location and nothing else. *)
Definition wrap (loc : location) (s : pystr) : pydict :=
  match loc with
  | At_query => [(u8 "query", PStr s)]
  | At_text => [(u8 "text", PStr s)]
  | At_content => [(u8 "content", PStr s)]
  | At_message_text => [(u8 "message", PDict [(u8 "text", PStr s)])]
  | At_nlpResult_text => [(u8 "nlpResult", PDict [(u8 "text", PStr s)])]
  end.

(** A decoded completion with nothing to read: no [choices], or a first
    choice without [message], or a message without [content]. *)
Definition lacks_content (d : pydict) : Prop :=
  lookup d (u8 "choices") = None
  \/ exists c rest,
      lookup d (u8 "choices") = Some (PList (PDict c :: rest))
      /\ (lookup c (u8 "message") = None
          \/ exists m, lookup c (u8 "message") = Some (PDict m)
                       /\ lookup m (u8 "content") = None).

(** ** A library instance for running the model

    The theorems below hold for every [PyLib]; concrete runs need one.
    [encode_utf8] is the real encoder; the digest and the float printer are
    stand-ins with the right shape, and the decoder knows the bodies the
    examples post. *)

Definition byte_of_N (n : N) : byte :=
  match Byte.of_N n with
  | Some b => b
  | None => x00
  end.

Definition utf8_encode_char (c : codepoint) : list byte :=
  (if c <? 0x80 then [byte_of_N c]
   else if c <? 0x800 then
     [byte_of_N (N.lor 0xC0 (N.shiftr c 6)); byte_of_N (N.lor 0x80 (N.land c 0x3F))]
   else if c <? 0x10000 then
     [byte_of_N (N.lor 0xE0 (N.shiftr c 12));
      byte_of_N (N.lor 0x80 (N.land (N.shiftr c 6) 0x3F));
      byte_of_N (N.lor 0x80 (N.land c 0x3F))]
   else
     [byte_of_N (N.lor 0xF0 (N.shiftr c 18));
      byte_of_N (N.lor 0x80 (N.land (N.shiftr c 12) 0x3F));
      byte_of_N (N.lor 0x80 (N.land (N.shiftr c 6) 0x3F));
      byte_of_N (N.lor 0x80 (N.land c 0x3F))])%N.

Definition sample_digest (key msg : list byte) : N :=
  fold_left (fun acc b => (acc * 257 + Byte.to_N b + 1) mod 2 ^ 256)%N (key ++ msg) 0x5C36%N.

Definition bytes_eqb (a b : list byte) : bool :=
  pystr_eqb (map Byte.to_N a) (map Byte.to_N b).

Definition hello_payload : pyval := PDict [(u8 "text", PStr (u8 "hello"))].

(** The bytes of [{"text":"hello"}]. *)
Definition hello_body : list byte :=
  flat_map utf8_encode_char
    ([0x7B; 0x22]%N ++ u8 "text" ++ [0x22; 0x3A; 0x22]%N ++ u8 "hello" ++ [0x22; 0x7D]%N).

Definition true_parent_payload : pyval := PDict [(u8 "message", PBool true)].

(** The bytes of [{"message":true}]. *)
Definition true_parent_body : list byte :=
  flat_map utf8_encode_char
    ([0x7B; 0x22]%N ++ u8 "message" ++ [0x22; 0x3A]%N ++ u8 "true" ++ [0x7D]%N).

Definition sample_json_loads (data : list byte) : option pyval :=
  if bytes_eqb data hello_body then Some hello_payload
  else if bytes_eqb data true_parent_body then Some true_parent_payload
  else None.

Definition sample_lib : PyLib := {|
  float_repr := fun _ => u8 "0.0";
  encode_utf8 := flat_map utf8_encode_char;
  hmac_sha256 := sample_digest;
  json_loads := sample_json_loads;
  json_loads_empty := eq_refl
|}.

(** ** Requests and configurations the examples run on *)

Definition payload_text_and_message : pydict :=
  [(u8 "message", PDict [(u8 "text", PStr (u8 "later"))]);
   (u8 "text", PStr (u8 "  hello "))].

Definition payload_message_and_nlp : pydict :=
  [(u8 "message", PDict [(u8 "text", PStr (u8 "weather today"))]);
   (u8 "nlpResult", PDict [(u8 "text", PStr (u8 "forecast"))])].

Definition app_defaults : App.Config :=
  App.mk_config [] (u8 "gpt-4o-mini") [] 1500 30.

Definition app_with_secret : App.Config :=
  App.mk_config [] (u8 "gpt-4o-mini") (u8 "s3cret") 1500 30.

Definition app_with_key : App.Config :=
  App.mk_config (u8 "sk-test") (u8 "gpt-4o-mini") [] 1500 30.

Definition qpp_defaults : Qpp.Config := Qpp.mk_config None [].

Definition qpp_with_secret : Qpp.Config := Qpp.mk_config None (u8 "s3cret").

Definition qpp_with_key : Qpp.Config := Qpp.mk_config (Some (u8 "sk-test")) [].

Definition connection_refused : exn := mk_exn RequestException (u8 "connection refused").

(** A network on which every POST fails to connect. *)
Definition network_down : requests_post_t := fun _ => Raise connection_refused.







(** POST of [{"text":"hello"}] with no [X-Signature] header. *)
Definition post_hello : Request := mk_request hello_body [].

(** POST of [{"message":true}] with no [X-Signature] header. *)
Definition post_true_parent : Request := mk_request true_parent_body [].

(** A stand-in for [int] on the decimal literals the examples use. *)
Definition sample_int (s : pystr) : option Z :=
  match s with
  | [] => None
  | _ :: _ =>
      if forallb (fun c => (0x30 <=? c) && (c <=? 0x39))%N s then
        Some (fold_left (fun acc c => acc * 10 + Z.of_N (c - 0x30))%Z s 0%Z)
      else None
  end.

(** An environment whose secret is two spaces. *)
Definition env_blank_secret : environ := [(u8 "WEBHOOK_SECRET", u8 "  ")].

(** A completion as the upstream returns it, with two choices. *)
Definition completion_body : pyval :=
  PDict [(u8 "id", PStr (u8 "chatcmpl-1"));
         (u8 "choices",
          PList [PDict [(u8 "index", PInt 0);
                        (u8 "message", PDict [(u8 "role", PStr (u8 "assistant"));
                                              (u8 "content", PStr (u8 " Sunny. "))])];
                 PDict [(u8 "index", PInt 1);
                        (u8 "message", PDict [(u8 "content", PStr (u8 "Rain."))])]])].

Definition response_ok : Response :=
  mk_response 200 (u8 "OK") (u8 "https://api.openai.com/v1/chat/completions")
    (Ok completion_body).

Definition upstream_ok : requests_post_t := fun _ => Ok response_ok.



(** app.py started with [MAX_REPLY_LEN=-1]. *)
Definition app_negative_limit : App.Config :=
  App.mk_config [] (u8 "gpt-4o-mini") [] (-1) 30.

(** An upstream that answers every POST with an accepted status and the
    JSON value [body]. *)
Definition response_with (body : pyval) : Response :=
  mk_response 200 (u8 "OK") (u8 "https://api.openai.com/v1/chat/completions") (Ok body).

Definition upstream_answers (body : pyval) : requests_post_t :=
  fun _ => Ok (response_with body).

(** A completion without [choices], and one whose [content] is null. *)
Definition completion_without_choices : pyval :=
  PDict [(u8 "id", PStr (u8 "chatcmpl-2"))].

Definition completion_null_content : pyval :=
  PDict [(u8 "choices",
          PList [PDict [(u8 "message", PDict [(u8 "content", PNone)])]])].

(** POST of [{"text":"hello"}] signed under the secret [s3cret]. *)
Definition post_hello_signed : Request :=
  mk_request hello_body
    [(u8 "X-Signature",
      hexdigest (lib := sample_lib) (encode_utf8 (PyLib := sample_lib) (u8 "s3cret"))
        hello_body)].

(** The bytes of [null] and of [[1]], and a library whose decoder knows
    them. *)
Definition null_body : list byte := flat_map utf8_encode_char (u8 "null").

Definition list_body : list byte := flat_map utf8_encode_char (u8 "[1]").

Definition values_json_loads (data : list byte) : option pyval :=
  if bytes_eqb data null_body then Some PNone
  else if bytes_eqb data list_body then Some (PList [PInt 1])
  else None.

Definition values_lib : PyLib := {|
  float_repr := fun _ => u8 "0.0";
  encode_utf8 := flat_map utf8_encode_char;
  hmac_sha256 := sample_digest;
  json_loads := values_json_loads;
  json_loads_empty := eq_refl
|}.

(** POST of [null] and POST of [[1]], unsigned. *)
Definition post_null : Request := mk_request null_body [].

Definition post_list : Request := mk_request list_body [].

(** * Properties *)

Arguments u8 : simpl never.

(** ** Strings, slices and dictionaries *)

Lemma pystr_eqb_eq (a b : pystr) : pystr_eqb a b = true <-> a = b.
Proof.
  unfold pystr_eqb. destruct (list_eq_dec N.eq_dec a b); split; congruence.
Qed.

Lemma pystr_eqb_refl (a : pystr) : pystr_eqb a a = true.
Proof. now apply pystr_eqb_eq. Qed.

Lemma slice_to_firstn (s : pystr) (n : nat) : slice_to s (Z.of_nat n) = firstn n s.
Proof.
  unfold slice_to.
  destruct (Z.ltb_spec (Z.of_nat n) 0) as [Hneg | _]; [lia |].
  destruct (Nat.le_gt_cases n (length s)) as [Hle | Hgt].
  - rewrite Z.min_l by lia. now rewrite Nat2Z.id.
  - rewrite Z.min_r by lia. rewrite Nat2Z.id.
    rewrite !firstn_all2; trivial; lia.
Qed.

Lemma slice_to_length (s : pystr) (n : Z) : (0 <= n)%Z -> (Z.of_nat (length (slice_to s n)) <= n)%Z.
Proof.
  intros Hn. unfold slice_to.
  destruct (Z.ltb_spec n 0) as [Hneg | _]; [lia |].
  rewrite length_firstn. lia.
Qed.

Lemma slice_to_prefix (s : pystr) (n : Z) : exists rest, s = slice_to s n ++ rest.
Proof.
  unfold slice_to. eexists. symmetry. apply firstn_skipn.
Qed.

Lemma slice_to_nonempty (s : pystr) (n : Z) : (0 < n)%Z -> s <> [] -> slice_to s n <> [].
Proof.
  intros Hn Hs. unfold slice_to.
  destruct (Z.ltb_spec n 0) as [Hneg | _]; [lia |].
  destruct s as [| c r]; [congruence |].
  assert (Hstop : exists k, Z.to_nat (Z.min n (Z.of_nat (length (c :: r)))) = S k).
  { exists (Nat.pred (Z.to_nat (Z.min n (Z.of_nat (length (c :: r)))))).
    simpl length. lia. }
  destruct Hstop as [k ->]. simpl. discriminate.
Qed.

(** ** The query extractor *)

Lemma first_candidate_cons (v : pyval) (rest : list pyval) :
  first_candidate (v :: rest) =
  match qualifies (Some v) with
  | Some s => Some s
  | None => first_candidate rest
  end.
Proof.
  destruct v as [| b | z | x | s | l | m]; simpl; try reflexivity.
  now destruct (str_truthy (strip s)).
Qed.

Lemma qualifies_dict_get (d : pydict) (k : pystr) :
  qualifies (Some (dict_get d k PNone)) = qualifies (lookup d k).
Proof.
  unfold dict_get. now destruct (lookup d k).
Qed.

(** Through a parent that is false or an object, the nested lookup of the
    code returns, and what it returns qualifies exactly as [parent.text]. *)
Lemma nested_get_ok (d : pydict) (parent : pystr) :
  parent_ok (dict_get d parent PNone) = true ->
  exists v,
    get (py_or (dict_get d parent PNone) (PDict [])) (u8 "text") PNone = Ok v
    /\ qualifies (Some v) = qualifies (nested d parent).
Proof.
  unfold nested, dict_get.
  destruct (lookup d parent) as [v |]; [| intros _; exists PNone; now split].
  unfold parent_ok, py_or.
  destruct (truthy v) eqn:Ht.
  - destruct v as [| b | z | x | s | l | m]; simpl; try discriminate.
    intros _. eexists. split; [reflexivity |]. apply qualifies_dict_get.
  - intros _. exists PNone. split; [reflexivity |].
    destruct v as [| b | z | x | s | l | m]; simpl; try reflexivity.
    destruct m; [reflexivity | discriminate].
Qed.

(** Past a parent that is true and not an object, the nested lookup raises
    AttributeError. *)
Lemma nested_get_raises (v : pyval) :
  parent_ok v = false ->
  get (py_or v (PDict [])) (u8 "text") PNone = Raise (no_attribute v "get").
Proof.
  unfold parent_ok, py_or.
  destruct (truthy v) eqn:Ht; simpl; [| discriminate].
  destruct v as [| b | z | x | s | l | m]; simpl; try reflexivity; discriminate.
Qed.

Section Extractor.
Context {lib : PyLib}.

(** What the extractor computes on an object whose [message] and
    [nlpResult] it gets through: the first qualifying location in the
    order of the file, else the serialized payload. *)
Lemma app_extract_spec (d : pydict) :
  parents_ok d = true ->
  App.extract_user_query (PDict d) =
  Ok (match first_located spec_order d with
      | Some s => s
      | None => json_dumps (PDict d)
      end).
Proof.
  intros Hp. apply andb_prop in Hp as [Hm Hn].
  destruct (nested_get_ok d _ Hm) as (vm & Em & Qm).
  destruct (nested_get_ok d _ Hn) as (vn & En & Qn).
  unfold App.extract_user_query. cbn [get rbind].
  rewrite Em. cbn [rbind]. rewrite En. cbn [rbind].
  rewrite !first_candidate_cons, !qualifies_dict_get, Qm, Qn.
  unfold spec_order, first_located, candidate, located.
  repeat (match goal with
          | |- context [qualifies ?v] => destruct (qualifies v); [reflexivity |]
          end).
  reflexivity.
Qed.

Lemma qpp_extract_spec (d : pydict) :
  parents_ok d = true ->
  Qpp.extract_user_query (PDict d) =
  Ok (match first_located qpp_order d with
      | Some s => s
      | None => json_dumps (PDict d)
      end).
Proof.
  intros Hp. apply andb_prop in Hp as [Hm Hn].
  destruct (nested_get_ok d _ Hm) as (vm & Em & Qm).
  destruct (nested_get_ok d _ Hn) as (vn & En & Qn).
  unfold Qpp.extract_user_query. cbn [get rbind].
  rewrite En. cbn [rbind]. rewrite Em. cbn [rbind].
  rewrite !first_candidate_cons, !qualifies_dict_get, Qm, Qn.
  unfold qpp_order, first_located, candidate, located.
  repeat (match goal with
          | |- context [qualifies ?v] => destruct (qualifies v); [reflexivity |]
          end).
  reflexivity.
Qed.

(** On any other object the extractor raises AttributeError. *)
Lemma app_extract_raises (d : pydict) :
  parents_ok d = false ->
  exists e, App.extract_user_query (PDict d) = Raise e /\ exn_cls e = AttributeError.
Proof.
  unfold parents_ok. intros Hp.
  unfold App.extract_user_query. cbn [get rbind].
  destruct (parent_ok (dict_get d (u8 "message") PNone)) eqn:Hm.
  - destruct (nested_get_ok d _ Hm) as (vm & Em & _). rewrite Em. cbn [rbind].
    simpl in Hp. rewrite (nested_get_raises _ Hp). cbn [rbind].
    eexists. split; reflexivity.
  - rewrite (nested_get_raises _ Hm). cbn [rbind]. eexists. split; reflexivity.
Qed.

Lemma qpp_extract_raises (d : pydict) :
  parents_ok d = false ->
  exists e, Qpp.extract_user_query (PDict d) = Raise e /\ exn_cls e = AttributeError.
Proof.
  unfold parents_ok. intros Hp.
  unfold Qpp.extract_user_query. cbn [get rbind].
  destruct (parent_ok (dict_get d (u8 "nlpResult") PNone)) eqn:Hn.
  - destruct (nested_get_ok d _ Hn) as (vn & En & _). rewrite En. cbn [rbind].
    rewrite andb_true_r in Hp.
    rewrite (nested_get_raises _ Hp). cbn [rbind]. eexists. split; reflexivity.
  - rewrite (nested_get_raises _ Hn). cbn [rbind]. eexists. split; reflexivity.
Qed.

(** A payload that is not an object has no [get]. *)
Lemma extract_not_object (v : pyval) :
  (forall d, v <> PDict d) ->
  App.extract_user_query v = Raise (no_attribute v "get")
  /\ Qpp.extract_user_query v = Raise (no_attribute v "get").
Proof.
  intros Hv. destruct v; try (split; reflexivity).
  now elim (Hv d).
Qed.
End Extractor.

Lemma first_located_earliest (order : list location) (d : pydict) pre loc post s :
  order = pre ++ loc :: post ->
  (forall l, In l pre -> candidate l d = None) ->
  candidate loc d = Some s ->
  first_located order d = Some s.
Proof.
  intros -> Hpre Hloc. induction pre as [| l pre IH]; simpl.
  - now rewrite Hloc.
  - rewrite (Hpre l) by now left. apply IH. intros l' Hl'. apply Hpre. now right.
Qed.

(** ** Priority among the candidates *)

(** C1 (as amended).  On every object payload whose [message] and
    [nlpResult] are each absent, false or an object, a location that holds
    a string that is not empty once trimmed, with no qualifying location
    before it, is what the extractor returns, trimmed: before it in the
    order query, text, content, message.text, nlpResult.text for app.py, and
    in the order query, text, content, nlpResult.text, message.text for
    qpp.py. *)
Theorem extract_earliest_candidate_wins {lib : PyLib}
    (d : pydict) (pre : list location) (loc : location) (s : pystr) :
  parents_ok d = true ->
  (forall l, In l pre -> candidate l d = None) ->
  candidate loc d = Some s ->
  ((exists post, spec_order = pre ++ loc :: post) ->
   App.extract_user_query (PDict d) = Ok s)
  /\ ((exists post, qpp_order = pre ++ loc :: post) ->
      Qpp.extract_user_query (PDict d) = Ok s).
Proof.
  intros Hp Hpre Hloc. split; intros [post Hord].
  - rewrite (app_extract_spec d Hp).
    now rewrite (first_located_earliest _ d pre loc post s Hord Hpre Hloc).
  - rewrite (qpp_extract_spec d Hp).
    now rewrite (first_located_earliest _ d pre loc post s Hord Hpre Hloc).
Qed.

Lemma extract_earliest_candidate_wins_witness :
  parents_ok payload_text_and_message = true
  /\ candidate At_query payload_text_and_message = None
  /\ candidate At_text payload_text_and_message = Some (u8 "hello")
  /\ App.extract_user_query (lib := sample_lib) (PDict payload_text_and_message)
     = Ok (u8 "hello")
  /\ Qpp.extract_user_query (lib := sample_lib) (PDict payload_text_and_message)
     = Ok (u8 "hello").
Proof.
  assert (Hpre : forall l, In l [At_query] -> candidate l payload_text_and_message = None).
  { intros l [<- | []]. reflexivity. }
  destruct (extract_earliest_candidate_wins (lib := sample_lib)
              payload_text_and_message [At_query] At_text (u8 "hello")
              eq_refl Hpre eq_refl) as [Happ Hqpp].
  split; [reflexivity |]. split; [reflexivity |]. split; [reflexivity |]. split.
  - apply Happ. now exists [At_content; At_message_text; At_nlpResult_text].
  - apply Hqpp. now exists [At_content; At_nlpResult_text; At_message_text].
Defined.

(** C1 (counterexample).  With both [message.text] and [nlpResult.text]
    present and nothing at the top level, qpp.py returns [nlpResult.text],
    the later of the two in the order query, text, content, message.text,
    nlpResult.text. *)
Lemma qpp_returns_the_later_candidate :
  (forall l, In l [At_query; At_text; At_content] ->
             candidate l payload_message_and_nlp = None)
  /\ candidate At_message_text payload_message_and_nlp = Some (u8 "weather today")
  /\ Qpp.extract_user_query (lib := sample_lib) (PDict payload_message_and_nlp)
     = Ok (u8 "forecast")
  /\ ~ earliest_wins spec_order (Qpp.extract_user_query (lib := sample_lib)).
Proof.
  assert (Hpre : forall l, In l [At_query; At_text; At_content] ->
                           candidate l payload_message_and_nlp = None).
  { intros l [<- | [<- | [<- | []]]]; reflexivity. }
  repeat split; trivial.
  intros Hwins.
  specialize (Hwins payload_message_and_nlp [At_query; At_text; At_content]
                At_message_text [At_nlpResult_text] (u8 "weather today")
                eq_refl Hpre eq_refl).
  vm_compute in Hwins. discriminate.
Qed.

(** ** Nested lookups through a parent that is not an object *)

(** C2 (the code at the failing input).  On the object
    [{"message": "hi"}] the nested lookup [message.text] raises
    AttributeError in both files: the string [message] is true, so
    [or {}] leaves it in place, and a str has no [get].  So it is on every
    object whose [message] or [nlpResult] is true and not an object, and
    only on those: on every other object the extractor returns. *)
Theorem extract_raises_on_string_parent {lib : PyLib} (d : pydict) :
  let payload := PDict [(u8 "message", PStr (u8 "hi"))] in
  App.extract_user_query payload
  = Raise (mk_exn AttributeError (u8 "'str' object has no attribute 'get'"))
  /\ Qpp.extract_user_query payload
     = Raise (mk_exn AttributeError (u8 "'str' object has no attribute 'get'"))
  /\ (parents_ok d = false ->
      (exists e, App.extract_user_query (PDict d) = Raise e
                 /\ exn_cls e = AttributeError)
      /\ (exists e, Qpp.extract_user_query (PDict d) = Raise e
                    /\ exn_cls e = AttributeError))
  /\ (parents_ok d = true ->
      (exists s, App.extract_user_query (PDict d) = Ok s)
      /\ (exists s, Qpp.extract_user_query (PDict d) = Ok s)).
Proof.
  cbv zeta. split; [reflexivity |]. split; [reflexivity |]. split; intros Hp.
  - split; [now apply app_extract_raises | now apply qpp_extract_raises].
  - rewrite (app_extract_spec d Hp), (qpp_extract_spec d Hp). split; eauto.
Qed.

(** C6 (the code at the failing input).  In [{"nlpResult": 7}] none of the
    five locations holds a string, yet neither file returns the serialized
    payload: both raise AttributeError. *)
Theorem extract_no_fallback_on_number_parent {lib : PyLib} :
  let d := [(u8 "nlpResult", PInt 7)] in
  (forall loc, candidate loc d = None)
  /\ App.extract_user_query (PDict d) <> Ok (json_dumps (PDict d))
  /\ Qpp.extract_user_query (PDict d) <> Ok (json_dumps (PDict d))
  /\ App.extract_user_query (PDict d)
     = Raise (mk_exn AttributeError (u8 "'int' object has no attribute 'get'"))
  /\ Qpp.extract_user_query (PDict d)
     = Raise (mk_exn AttributeError (u8 "'int' object has no attribute 'get'")).
Proof.
  cbv zeta. repeat split; try discriminate.
  intros loc. now destruct loc.
Qed.

(** ** Signature verification *)

Lemma hex_digit_ascii (n : N) : (n < 16)%N -> (hex_digit n <? 0x80)%N = true.
Proof.
  intros Hn. unfold hex_digit. apply N.ltb_lt.
  destruct (N.ltb_spec n 10); lia.
Qed.

Lemma hex_fixed_length (k : nat) (x : N) : length (hex_fixed k x) = k.
Proof.
  revert x. induction k as [| k IH]; intros x; simpl; [reflexivity |].
  rewrite length_app, IH. simpl. lia.
Qed.

Lemma hex_fixed_ascii (k : nat) (x : N) : is_ascii (hex_fixed k x) = true.
Proof.
  revert x. unfold is_ascii. induction k as [| k IH]; intros x; simpl; [reflexivity |].
  rewrite forallb_app, IH. simpl. rewrite andb_true_r.
  apply hex_digit_ascii.
  change 0xF%N with (N.ones 4). rewrite N.land_ones.
  apply N.mod_lt. discriminate.
Qed.

Section Signature.
Context {lib : PyLib}.

Lemma hexdigest_nonempty (key msg : list byte) : str_truthy (hexdigest key msg) = true.
Proof.
  unfold hexdigest. pose proof (hex_fixed_length 64 (hmac_sha256 key msg)) as Hlen.
  destruct (hex_fixed 64 (hmac_sha256 key msg)); [discriminate | reflexivity].
Qed.

Lemma compare_digest_ascii (mac sig : pystr) :
  is_ascii mac = true -> is_ascii sig = true ->
  compare_digest mac sig = Ok (pystr_eqb mac sig).
Proof. intros Hm Hs. unfold compare_digest. now rewrite Hm, Hs. Qed.

Lemma compare_digest_non_ascii (mac sig : pystr) :
  is_ascii sig = false ->
  compare_digest mac sig
  = Raise (mk_exn TypeError
             (u8 "comparing strings with non-ASCII characters is not supported")).
Proof. intros Hs. unfold compare_digest. now rewrite Hs, andb_false_r. Qed.

Lemma app_verify_with (cfg : App.Config) raw hs :
  App.verify_signature cfg raw hs = verify_with (App.WEBHOOK_SECRET cfg) raw hs.
Proof. reflexivity. Qed.

Lemma qpp_verify_with (cfg : Qpp.Config) raw hs :
  Qpp.verify_signature cfg raw hs = verify_with (Qpp.WEBHOOK_SECRET cfg) raw hs.
Proof. reflexivity. Qed.

(** No secret configured: every request verifies. *)
Lemma verify_disabled raw hs : verify_with [] raw hs = Ok true.
Proof. reflexivity. Qed.

(** A secret configured, the header absent or empty: refused. *)
Lemma verify_missing_header secret raw hs :
  secret <> [] ->
  headers_get hs (u8 "X-Signature") [] = [] ->
  verify_with secret raw hs = Ok false.
Proof.
  intros Hs Hh. unfold verify_with, App.verify_signature. cbn [App.WEBHOOK_SECRET].
  destruct secret as [| c secret]; [congruence |].
  change (negb (str_truthy (c :: secret))) with false. cbv iota.
  now rewrite Hh.
Qed.

(** A secret configured, the header equal to the hexadecimal digest:
    accepted. *)
Lemma verify_correct_digest secret raw hs :
  secret <> [] ->
  headers_get hs (u8 "X-Signature") [] = hexdigest (encode_utf8 secret) raw ->
  verify_with secret raw hs = Ok true.
Proof.
  intros Hs Hh. unfold verify_with, App.verify_signature. cbn [App.WEBHOOK_SECRET].
  destruct secret as [| c secret]; [congruence |].
  change (negb (str_truthy (c :: secret))) with false. cbv iota.
  rewrite Hh, hexdigest_nonempty. cbn [negb].
  rewrite compare_digest_ascii by apply hex_fixed_ascii.
  now rewrite pystr_eqb_refl.
Qed.

(** A secret configured, any other ASCII header value: refused. *)
Lemma verify_wrong_digest secret raw hs :
  secret <> [] ->
  headers_get hs (u8 "X-Signature") [] <> hexdigest (encode_utf8 secret) raw ->
  is_ascii (headers_get hs (u8 "X-Signature") []) = true ->
  verify_with secret raw hs = Ok false.
Proof.
  intros Hs Hh Ha. unfold verify_with, App.verify_signature. cbn [App.WEBHOOK_SECRET].
  destruct secret as [| c secret]; [congruence |].
  change (negb (str_truthy (c :: secret))) with false. cbv iota.
  destruct (headers_get hs (u8 "X-Signature") []) as [| h sig] eqn:Eh; [reflexivity |].
  change (negb (str_truthy (h :: sig))) with false. cbv iota.
  rewrite compare_digest_ascii; [| apply hex_fixed_ascii | exact Ha].
  destruct (pystr_eqb _ _) eqn:Eq; [| reflexivity].
  apply pystr_eqb_eq in Eq. congruence.
Qed.

(** A secret configured, a header value with a character outside ASCII:
    [compare_digest] raises TypeError. *)
Lemma verify_non_ascii_header secret raw hs :
  secret <> [] ->
  is_ascii (headers_get hs (u8 "X-Signature") []) = false ->
  verify_with secret raw hs
  = Raise (mk_exn TypeError
             (u8 "comparing strings with non-ASCII characters is not supported")).
Proof.
  intros Hs Ha. unfold verify_with, App.verify_signature. cbn [App.WEBHOOK_SECRET].
  destruct secret as [| c secret]; [congruence |].
  change (negb (str_truthy (c :: secret))) with false. cbv iota.
  destruct (headers_get hs (u8 "X-Signature") []) as [| h sig] eqn:Eh; [discriminate |].
  change (negb (str_truthy (h :: sig))) with false. cbv iota.
  now apply compare_digest_non_ascii.
Qed.
End Signature.

(** C3 (the code at the failing input).  With a secret configured and the
    header [X-Signature: é] (one character, U+00E9), a value other than the
    digest, [verify_signature] does not return false in either file: it
    raises TypeError, whatever the secret and the body. *)
Theorem verify_signature_raises_on_non_ascii_header {lib : PyLib}
    (c : codepoint) (secret : pystr) (raw : list byte)
    (key model : pystr) (max_len timeout : Z) (api_key : option pystr) :
  let hs := [(u8 "X-Signature", [0xE9%N])] in
  headers_get hs (u8 "X-Signature") [] <> hexdigest (encode_utf8 (c :: secret)) raw
  /\ App.verify_signature (App.mk_config key model (c :: secret) max_len timeout) raw hs
     = Raise (mk_exn TypeError
                (u8 "comparing strings with non-ASCII characters is not supported"))
  /\ Qpp.verify_signature (Qpp.mk_config api_key (c :: secret)) raw hs
     = Raise (mk_exn TypeError
                (u8 "comparing strings with non-ASCII characters is not supported")).
Proof.
  cbv zeta. split; [| split].
  - intros Heq.
    pose proof (hex_fixed_ascii 64 (hmac_sha256 (encode_utf8 (c :: secret)) raw)) as Ha.
    unfold hexdigest in Heq. rewrite <- Heq in Ha. discriminate.
  - rewrite app_verify_with. now apply verify_non_ascii_header.
  - rewrite qpp_verify_with. now apply verify_non_ascii_header.
Qed.

(** ** The extracted query is never empty *)

Lemma first_candidate_nonempty (cs : list pyval) (s : pystr) :
  first_candidate cs = Some s -> str_truthy s = true.
Proof.
  induction cs as [| c cs IH]; simpl; [discriminate |].
  destruct c as [| b | z | x | t | l | m]; trivial.
  destruct (str_truthy (strip t)) eqn:Ht; trivial.
  now intros [= <-].
Qed.

Section Query.
Context {lib : PyLib}.

Lemma json_dumps_object_nonempty (d : pydict) : str_truthy (json_dumps (PDict d)) = true.
Proof.
  unfold json_dumps. cbn [dumps_value]. change (u8 "{") with [0x7B%N]. reflexivity.
Qed.

Lemma app_extract_nonempty (payload : pyval) (s : pystr) :
  App.extract_user_query payload = Ok s -> str_truthy s = true.
Proof.
  unfold App.extract_user_query.
  destruct payload as [| b | z | x | t | l | d]; try discriminate.
  cbn [get rbind].
  destruct (get (py_or (dict_get d (u8 "message") PNone) (PDict [])) _ _);
    cbn [rbind]; [| discriminate].
  destruct (get (py_or (dict_get d (u8 "nlpResult") PNone) (PDict [])) _ _);
    cbn [rbind]; [| discriminate].
  destruct (first_candidate _) eqn:Hc; intros [= <-].
  - exact (first_candidate_nonempty _ _ Hc).
  - apply json_dumps_object_nonempty.
Qed.

Lemma qpp_extract_nonempty (payload : pyval) (s : pystr) :
  Qpp.extract_user_query payload = Ok s -> str_truthy s = true.
Proof.
  unfold Qpp.extract_user_query.
  destruct payload as [| b | z | x | t | l | d]; try discriminate.
  cbn [get rbind].
  destruct (get (py_or (dict_get d (u8 "nlpResult") PNone) (PDict [])) _ _);
    cbn [rbind]; [| discriminate].
  destruct (get (py_or (dict_get d (u8 "message") PNone) (PDict [])) _ _);
    cbn [rbind]; [| discriminate].
  destruct (first_candidate _) eqn:Hc; intros [= <-].
  - exact (first_candidate_nonempty _ _ Hc).
  - apply json_dumps_object_nonempty.
Qed.

Lemma str_truthy_slice (s : pystr) (n : Z) :
  (0 < n)%Z -> str_truthy s = true -> str_truthy (slice_to s n) = true.
Proof.
  intros Hn Hs.
  assert (Hne : slice_to s n <> []).
  { apply slice_to_nonempty; trivial. destruct s; [discriminate | congruence]. }
  destruct (slice_to s n); [congruence | reflexivity].
Qed.

Lemma app_user_query_inv (payload : pyval) (q : pystr) :
  App.user_query_of payload = Ok q ->
  exists s, App.extract_user_query payload = Ok s /\ q = slice_to s 2000.
Proof.
  unfold App.user_query_of.
  destruct (App.extract_user_query payload) as [s | e]; cbn [rbind]; [| discriminate].
  intros [= <-]. now exists s.
Qed.

Lemma qpp_user_query_inv (payload : pyval) (q : pystr) :
  Qpp.user_query_of payload = Ok q ->
  exists s, Qpp.extract_user_query payload = Ok s /\ q = slice_to s 2000.
Proof.
  unfold Qpp.user_query_of.
  destruct (Qpp.extract_user_query payload) as [s | e]; cbn [rbind]; [| discriminate].
  intros [= <-]. now exists s.
Qed.

(** The guard [not user_query] of the handlers is false whenever it is
    reached. *)
Lemma app_user_query_nonempty (payload : pyval) (q : pystr) :
  App.user_query_of payload = Ok q -> str_truthy q = true.
Proof.
  intros Hq. destruct (app_user_query_inv _ _ Hq) as (s & Hs & ->).
  apply str_truthy_slice; [lia |]. exact (app_extract_nonempty _ _ Hs).
Qed.

Lemma qpp_user_query_nonempty (payload : pyval) (q : pystr) :
  Qpp.user_query_of payload = Ok q -> str_truthy q = true.
Proof.
  intros Hq. destruct (qpp_user_query_inv _ _ Hq) as (s & Hs & ->).
  apply str_truthy_slice; [lia |]. exact (qpp_extract_nonempty _ _ Hs).
Qed.
End Query.

(** ** The callback handler *)

Lemma text_field_of_text (t : pyval) (rest : pydict) (st : Z) :
  text_field (mk_http (jsonify ((u8 "text", t) :: rest)) st) = Some t.
Proof.
  unfold text_field, jsonify. cbn [body lookup]. now rewrite pystr_eqb_refl.
Qed.


Lemma slice_2000_length (s : pystr) : length (slice_to s 2000) <= 2000.
Proof.
  change 2000%Z with (Z.of_nat 2000). rewrite slice_to_firstn, length_firstn. lia.
Qed.

(** One step of a handler run: the monad operations and the tests on
    known values reduce, the calls stay folded. *)
Ltac run := cbn [bind lift tell ret try_except outcome log_of fst snd app negb].

Section Handler.
Context {lib : PyLib}.
Variable net : requests_post_t.

(** *** The completion client *)

(** Before it does anything else the client of app.py echoes when no key
    is configured. *)
Lemma app_ask_openai_echo (cfg : App.Config) (prompt : pystr) :
  str_truthy (App.OPENAI_API_KEY cfg) = false ->
  App.ask_openai cfg net prompt
  = ([Ev_ask_openai prompt], Ok (u8 "你说的是：" ++ prompt)).
Proof.
  intros Hk. unfold App.ask_openai. rewrite Hk. reflexivity.
Qed.



(** The client never raises, whatever the network does; it logs its
    prompt first and at most one POST, the one for that prompt. *)
Lemma app_ask_openai_returns (cfg : App.Config) (prompt : pystr) :
  exists s,
    App.ask_openai cfg net prompt = ([Ev_ask_openai prompt], Ok s)
    \/ (str_truthy (App.OPENAI_API_KEY cfg) = true
        /\ App.ask_openai cfg net prompt
           = ([Ev_ask_openai prompt; Ev_requests_post (App.completion_call cfg prompt)],
              Ok s)).
Proof.
  unfold App.ask_openai.
  destruct (str_truthy (App.OPENAI_API_KEY cfg)); run; [| eauto].
  destruct (net (App.completion_call cfg prompt)) as [r | e]; run; [| eauto].
  destruct (raise_for_status r) as [[] | e]; run; [| eauto].
  destruct (r_json r) as [resp | e]; run; [| eauto].
  destruct (first_choice_content resp) as [ans | e]; run; eauto.
Qed.

Lemma qpp_ask_openai_returns (cfg : Qpp.Config) (prompt : pystr) :
  exists s,
    Qpp.ask_openai cfg net prompt
    = ([Ev_ask_openai prompt; Ev_requests_post (Qpp.completion_call cfg prompt)], Ok s).
Proof.
  unfold Qpp.ask_openai. run.
  destruct (net (Qpp.completion_call cfg prompt)) as [r | e]; run; [| eauto].
  destruct (raise_for_status r) as [[] | e]; run; [| eauto].
  destruct (r_json r) as [resp | e]; run; [| eauto].
  destruct (first_choice_content resp) as [ans | e]; run; eauto.
Qed.

(** *** A run of each handler, step by step *)

(** app.py reads the body with [get_data(cache=False)]: the stream is
    consumed and nothing is cached, so [get_json] decodes the empty string,
    [body] is [{}] and the query is its serialization. *)
Lemma app_run (cfg : App.Config) (request : Request) :
  App.wechat_callback cfg net request =
  match App.verify_signature cfg (wire_body request) (headers request) with
  | Raise e => ([], Raise e)
  | Ok false => ([], Ok reply_invalid_signature)
  | Ok true =>
      ([Ev_get_json; Ev_extract_user_query (PDict [])]
         ++ log_of (App.ask_openai cfg net (u8 "{}")),
       match outcome (App.ask_openai cfg net (u8 "{}")) with
       | Ok answer => Ok (app_reply (slice_to answer (App.MAX_REPLY_LEN cfg)))
       | Raise e => Raise e
       end)
  end.
Proof.
  unfold App.wechat_callback. cbn [get_data incoming cached_data stream].
  destruct (App.verify_signature cfg _ _) as [[|] | e]; run; try reflexivity.
  unfold App.get_json_silent, get_json. cbn [get_data cached_data stream fst].
  rewrite json_loads_empty.
  change (py_or PNone (PDict [])) with (PDict []).
  change (App.user_query_of (PDict [])) with (Ok (A := pystr) (u8 "{}")). run.
  change (str_truthy (u8 "{}")) with true. run.
  destruct (App.ask_openai cfg net (u8 "{}")) as [l [a | e]]; run;
    rewrite ?app_nil_r; reflexivity.
Qed.

(** qpp.py reads the body with [get_data()], which caches it, and
    [get_json] decodes the cached bytes. *)
Lemma qpp_run (cfg : Qpp.Config) (request : Request) :
  Qpp.wechat_callback cfg net request =
  match Qpp.verify_signature cfg (wire_body request) (headers request) with
  | Raise e => ([], Raise e)
  | Ok false => ([], Ok reply_invalid_signature)
  | Ok true =>
      match json_loads (wire_body request) with
      | None => ([Ev_get_json], Ok reply_bad_json)
      | Some v =>
          let body := py_or v (PDict []) in
          match Qpp.user_query_of body with
          | Raise e => ([Ev_get_json; Ev_extract_user_query body], Raise e)
          | Ok user_query =>
              if Qpp.opt_truthy (Qpp.OPENAI_API_KEY cfg) then
                ([Ev_get_json; Ev_extract_user_query body]
                   ++ log_of (Qpp.ask_openai cfg net user_query),
                 match outcome (Qpp.ask_openai cfg net user_query) with
                 | Ok answer => Ok (qpp_reply (slice_to answer 1500) user_query)
                 | Raise e => Raise e
                 end)
              else
                ([Ev_get_json; Ev_extract_user_query body],
                 Ok (qpp_reply (u8 "未配置 OPENAI_API_KEY") user_query))
          end
      end
  end.
Proof.
  unfold Qpp.wechat_callback. cbn [get_data incoming cached_data stream].
  destruct (Qpp.verify_signature cfg _ _) as [[|] | e]; run; try reflexivity.
  unfold Qpp.get_json_strict, get_json. cbn [get_data cached_data stream fst].
  destruct (json_loads (wire_body request)) as [v |]; run; [| reflexivity].
  cbv zeta.
  destruct (Qpp.user_query_of (py_or v (PDict []))) as [q | e] eqn:Hq; run;
    [| reflexivity].
  rewrite (qpp_user_query_nonempty _ _ Hq). run.
  destruct (Qpp.opt_truthy (Qpp.OPENAI_API_KEY cfg)); run; [| reflexivity].
  destruct (Qpp.ask_openai cfg net q) as [l [a | e]]; run;
    rewrite ?app_nil_r; reflexivity.
Qed.
(** *** Refusal *)

(** C5.  A request whose signature verification returns false is answered
    401 with the body [{"code": 401, "msg": "invalid signature"}], and the
    handler has then performed none of its later calls: the body is not
    decoded, no query is extracted, the completion client is not entered
    and no POST is sent. *)
Theorem invalid_signature_is_401 (acfg : App.Config) (qcfg : Qpp.Config)
    (request : Request) :
  (App.verify_signature acfg (wire_body request) (headers request) = Ok false ->
   App.wechat_callback acfg net request
   = ([], Ok (mk_http (PDict [(u8 "code", PInt 401);
                              (u8 "msg", PStr (u8 "invalid signature"))]) 401)))
  /\ (Qpp.verify_signature qcfg (wire_body request) (headers request) = Ok false ->
      Qpp.wechat_callback qcfg net request
      = ([], Ok (mk_http (PDict [(u8 "code", PInt 401);
                                 (u8 "msg", PStr (u8 "invalid signature"))]) 401))).
Proof.
  split; intros Hv.
  - rewrite app_run, Hv. reflexivity.
  - rewrite qpp_run, Hv. reflexivity.
Qed.

(** *** Lengths *)

(** The prompt a handler hands to the client is a user query. *)
Lemma app_prompt_is_user_query (cfg : App.Config) (request : Request) (p : pystr) :
  In (Ev_ask_openai p) (log_of (App.wechat_callback cfg net request)) ->
  exists payload, App.user_query_of payload = Ok p.
Proof.
  rewrite app_run.
  destruct (App.verify_signature cfg _ _) as [[|] | e]; run;
    [| intros [] | intros []].
  destruct (app_ask_openai_returns cfg (u8 "{}")) as (a & [-> | [_ ->]]); run;
    intros Hin; exists (PDict []);
    repeat (destruct Hin as [[=] | Hin]); try destruct Hin; subst; reflexivity.
Qed.

Lemma qpp_prompt_is_user_query (cfg : Qpp.Config) (request : Request) (p : pystr) :
  In (Ev_ask_openai p) (log_of (Qpp.wechat_callback cfg net request)) ->
  exists payload, Qpp.user_query_of payload = Ok p.
Proof.
  rewrite qpp_run.
  destruct (Qpp.verify_signature cfg _ _) as [[|] | e]; run;
    [| intros [] | intros []].
  destruct (json_loads (wire_body request)) as [v |]; run; [| intros [[=] | []]].
  cbv zeta.
  destruct (Qpp.user_query_of (py_or v (PDict []))) as [q | e] eqn:Hq; run;
    [| intros [[=] | [[=] | []]]].
  destruct (Qpp.opt_truthy (Qpp.OPENAI_API_KEY cfg)); run;
    [| intros [[=] | [[=] | []]]].
  destruct (qpp_ask_openai_returns cfg q) as (a & ->); run.
  intros Hin. exists (py_or v (PDict [])).
  repeat (destruct Hin as [[=] | Hin]); try destruct Hin; subst; exact Hq.
Qed.

(** C7.  Whatever the extractor returns on a payload, the query the
    handlers go on with is its first 2000 characters, so it is at most 2000
    long; the slice [s[:N]] the handlers cut with is the prefix operation:
    for every N it is the first N characters of [s], at most N of them,
    and [s] continues it; and every prompt a handler hands to the
    completion client is at most 2000 long. *)
Theorem user_query_is_a_bounded_prefix (payload : pyval) (s : pystr) :
  (App.extract_user_query payload = Ok s ->
   App.user_query_of payload = Ok (firstn 2000 s) /\ length (firstn 2000 s) <= 2000)
  /\ (Qpp.extract_user_query payload = Ok s ->
      Qpp.user_query_of payload = Ok (firstn 2000 s) /\ length (firstn 2000 s) <= 2000)
  /\ (forall N : nat,
        slice_to s (Z.of_nat N) = firstn N s
        /\ length (slice_to s (Z.of_nat N)) <= N
        /\ exists rest, s = slice_to s (Z.of_nat N) ++ rest)
  /\ (forall (cfg : App.Config) (request : Request) (p : pystr),
        In (Ev_ask_openai p) (log_of (App.wechat_callback cfg net request)) ->
        length p <= 2000)
  /\ (forall (cfg : Qpp.Config) (request : Request) (p : pystr),
        In (Ev_ask_openai p) (log_of (Qpp.wechat_callback cfg net request)) ->
        length p <= 2000).
Proof.
  split; [| split; [| split; [| split]]].
  - intros Hs. unfold App.user_query_of. rewrite Hs. cbn [rbind].
    change 2000%Z with (Z.of_nat 2000). rewrite slice_to_firstn. split; [reflexivity |].
    rewrite length_firstn. lia.
  - intros Hs. unfold Qpp.user_query_of. rewrite Hs. cbn [rbind].
    change 2000%Z with (Z.of_nat 2000). rewrite slice_to_firstn. split; [reflexivity |].
    rewrite length_firstn. lia.
  - intros N. split; [apply slice_to_firstn |]. split.
    + rewrite slice_to_firstn, length_firstn. lia.
    + apply slice_to_prefix.
  - intros cfg request p Hin.
    destruct (app_prompt_is_user_query _ _ _ Hin) as (v & Hq).
    destruct (app_user_query_inv _ _ Hq) as (t & _ & ->).
    apply slice_2000_length.
  - intros cfg request p Hin.
    destruct (qpp_prompt_is_user_query _ _ _ Hin) as (v & Hq).
    destruct (qpp_user_query_inv _ _ Hq) as (t & _ & ->).
    apply slice_2000_length.
Qed.

(** C8 (as amended).  Every response of the handlers that carries a [text]
    string carries one no longer than the maximum reply length, when that
    length is not negative: [MAX_REPLY_LEN] in app.py, 1500 in qpp.py. *)
Theorem reply_text_is_bounded (acfg : App.Config) (qcfg : Qpp.Config)
    (request : Request) (r : HttpResponse) (t : pystr) :
  text_field r = Some (PStr t) ->
  ((0 <= App.MAX_REPLY_LEN acfg)%Z ->
   outcome (App.wechat_callback acfg net request) = Ok r ->
   (Z.of_nat (length t) <= App.MAX_REPLY_LEN acfg)%Z)
  /\ (outcome (Qpp.wechat_callback qcfg net request) = Ok r ->
      (Z.of_nat (length t) <= 1500)%Z).
Proof.
  intros Ht. split.
  - intros Hmax. rewrite app_run.
    destruct (App.verify_signature acfg _ _) as [[|] | e]; run.
    + destruct (outcome (App.ask_openai acfg net (u8 "{}"))) as [a | e];
        [| discriminate].
      intros [= <-]. unfold app_reply in Ht.
      rewrite (text_field_of_text _ []) in Ht. injection Ht as <-.
      now apply slice_to_length.
    + intros [= <-]. vm_compute in Ht. discriminate.
    + discriminate.
  - rewrite qpp_run.
    destruct (Qpp.verify_signature qcfg _ _) as [[|] | e]; run.
    + destruct (json_loads (wire_body request)) as [v |]; run.
      * cbv zeta.
        destruct (Qpp.user_query_of (py_or v (PDict []))) as [q | e]; run;
          [| discriminate].
        destruct (Qpp.opt_truthy (Qpp.OPENAI_API_KEY qcfg)); run.
        -- destruct (outcome (Qpp.ask_openai qcfg net q)) as [a | e];
             [| discriminate].
           intros [= <-]. unfold qpp_reply in Ht.
           rewrite (text_field_of_text _ [_]) in Ht. injection Ht as <-.
           now apply slice_to_length.
        -- intros [= <-]. unfold qpp_reply in Ht.
           rewrite (text_field_of_text _ [_]) in Ht. injection Ht as <-.
           vm_compute. discriminate.
      * intros [= <-]. vm_compute in Ht. discriminate.
    + intros [= <-]. vm_compute in Ht. discriminate.
    + discriminate.
Qed.
(** *** Upstream failures *)




(** *** The first end-to-end scenario *)

(** C9 (as amended).  With no secret and no key configured, a POST whose
    body is [{"text": "hello"}] is answered 200 by qpp.py with the notice
    that no key is configured in [text], which does not contain "hello",
    and the query "hello" under [meta.echo]; no POST is sent.  In app.py
    the extractor returns "hello" on that payload and the completion
    client, without a key, returns the echo of its prompt, which contains
    "hello". *)
Theorem hello_without_secret_or_key (acfg : App.Config) (qcfg : Qpp.Config)
    (request : Request) :
  (Qpp.WEBHOOK_SECRET qcfg = [] ->
   Qpp.opt_truthy (Qpp.OPENAI_API_KEY qcfg) = false ->
   json_loads (wire_body request) = Some hello_payload ->
   Qpp.wechat_callback qcfg net request
   = ([Ev_get_json; Ev_extract_user_query hello_payload],
      Ok (mk_http
            (PDict [(u8 "text", PStr (u8 "未配置 OPENAI_API_KEY"));
                    (u8 "meta", PDict [(u8 "echo", PStr (u8 "hello"));
                                       (u8 "model", PStr (u8 "gpt-4o-mini"))])])
            200))
   /\ contains (u8 "未配置 OPENAI_API_KEY") (u8 "hello") = false)
  /\ (App.OPENAI_API_KEY acfg = [] ->
      App.extract_user_query hello_payload = Ok (u8 "hello")
      /\ App.ask_openai acfg net (u8 "hello")
         = ([Ev_ask_openai (u8 "hello")], Ok (u8 "你说的是：hello"))
      /\ contains (u8 "你说的是：hello") (u8 "hello") = true).
Proof.
  split.
  - intros Hs Hk Hj. split; [| reflexivity].
    rewrite qpp_run, qpp_verify_with, Hs, verify_disabled, Hj. cbv zeta.
    change (py_or hello_payload (PDict [])) with hello_payload.
    change (Qpp.user_query_of hello_payload) with (Ok (A := pystr) (u8 "hello")).
    cbv iota. rewrite Hk. reflexivity.
  - intros Hk. split; [reflexivity |]. split; [| reflexivity].
    rewrite app_ask_openai_echo by now rewrite Hk. reflexivity.
Qed.

(** *** A parent that is not an object, end to end *)

(** C10 (the code at the failing input).  On the object
    [{"message": true}] the extractor of either file returns no string at
    all: it raises AttributeError; and qpp.py, with no secret configured,
    serves 500 to a POST of that body. *)
Theorem extractor_raises_on_true_parent (request : Request) (api_key : option pystr) :
  let error := mk_exn AttributeError (u8 "'bool' object has no attribute 'get'") in
  json_loads (wire_body request) = Some true_parent_payload ->
  App.extract_user_query true_parent_payload = Raise error
  /\ Qpp.extract_user_query true_parent_payload = Raise error
  /\ outcome (Qpp.wechat_callback (Qpp.mk_config api_key []) net request) = Raise error
  /\ served_status (Qpp.wechat_callback (Qpp.mk_config api_key []) net request) = 500%Z.
Proof.
  cbv zeta. intros Hj.
  assert (Hrun : outcome (Qpp.wechat_callback (Qpp.mk_config api_key []) net request)
                 = Raise (mk_exn AttributeError
                            (u8 "'bool' object has no attribute 'get'"))).
  { rewrite qpp_run, qpp_verify_with. cbn [Qpp.WEBHOOK_SECRET].
    rewrite verify_disabled, Hj. reflexivity. }
  split; [reflexivity |]. split; [reflexivity |]. split; [exact Hrun |].
  unfold served_status. now rewrite Hrun.
Qed.
End Handler.

(** ** The theorems at concrete requests *)

Lemma invalid_signature_is_401_witness :
  App.verify_signature (lib := sample_lib) app_with_secret
    (wire_body post_hello) (headers post_hello) = Ok false
  /\ Qpp.verify_signature (lib := sample_lib) qpp_with_secret
       (wire_body post_hello) (headers post_hello) = Ok false
  /\ log_of (App.wechat_callback (lib := sample_lib) app_with_secret network_down post_hello)
     = []
  /\ served_status
       (App.wechat_callback (lib := sample_lib) app_with_secret network_down post_hello)
     = 401%Z
  /\ log_of (Qpp.wechat_callback (lib := sample_lib) qpp_with_secret network_down post_hello)
     = []
  /\ served_status
       (Qpp.wechat_callback (lib := sample_lib) qpp_with_secret network_down post_hello)
     = 401%Z.
Proof.
  destruct (invalid_signature_is_401 (lib := sample_lib) network_down
              app_with_secret qpp_with_secret post_hello) as [Happ Hqpp].
  split; [reflexivity |]. split; [reflexivity |].
  rewrite (Happ eq_refl), (Hqpp eq_refl). repeat split.
Defined.

Lemma user_query_is_a_bounded_prefix_witness :
  App.extract_user_query (lib := sample_lib) hello_payload = Ok (u8 "hello")
  /\ App.user_query_of (lib := sample_lib) hello_payload = Ok (u8 "hello")
  /\ Qpp.user_query_of (lib := sample_lib) hello_payload = Ok (u8 "hello")
  /\ slice_to (u8 "hello") 3 = u8 "hel"
  /\ In (Ev_ask_openai (u8 "hello"))
       (log_of (Qpp.wechat_callback (lib := sample_lib) qpp_with_key network_down post_hello))
  /\ length (u8 "hello") <= 2000.
Proof.
  destruct (user_query_is_a_bounded_prefix (lib := sample_lib) network_down
              hello_payload (u8 "hello"))
    as (Happ & Hqpp & Hcut & _ & Hlog).
  assert (Hin : In (Ev_ask_openai (u8 "hello"))
                  (log_of (Qpp.wechat_callback (lib := sample_lib) qpp_with_key
                             network_down post_hello))).
  { right. right. now left. }
  split; [reflexivity |].
  split; [exact (proj1 (Happ eq_refl)) |].
  split; [exact (proj1 (Hqpp eq_refl)) |].
  split; [exact (proj1 (Hcut 3)) |].
  split; [exact Hin |].
  exact (Hlog qpp_with_key post_hello (u8 "hello") Hin).
Defined.

Lemma reply_text_is_bounded_witness :
  outcome (Qpp.wechat_callback (lib := sample_lib) qpp_with_key network_down post_hello)
  = Ok (qpp_reply (u8 "调用大模型失败：connection refused") (u8 "hello"))
  /\ (Z.of_nat (length (u8 "调用大模型失败：connection refused")) <= 1500)%Z
  /\ outcome (App.wechat_callback (lib := sample_lib) app_with_key network_down post_hello)
     = Ok (app_reply (u8 "调用大模型失败：connection refused"))
  /\ (Z.of_nat (length (u8 "调用大模型失败：connection refused"))
      <= App.MAX_REPLY_LEN app_with_key)%Z.
Proof.
  split; [reflexivity |]. split; [| split; [reflexivity |]].
  - exact (proj2 (reply_text_is_bounded (lib := sample_lib) network_down
                    app_with_key qpp_with_key post_hello
                    (qpp_reply (u8 "调用大模型失败：connection refused") (u8 "hello"))
                    (u8 "调用大模型失败：connection refused") eq_refl) eq_refl).
  - refine (proj1 (reply_text_is_bounded (lib := sample_lib) network_down
                     app_with_key qpp_with_key post_hello
                     (app_reply (u8 "调用大模型失败：connection refused"))
                     (u8 "调用大模型失败：connection refused") eq_refl) _ eq_refl).
    discriminate.
Defined.

(** C8 (counterexample).  app.py started with [MAX_REPLY_LEN=-1], which
    [int] accepts: the slice [answer[:-1]] drops the last character of the
    answer and keeps the rest, so the [text] served has six characters,
    more than the configured maximum. *)
Lemma negative_reply_limit_is_exceeded :
  App.MAX_REPLY_LEN app_negative_limit = (-1)%Z
  /\ outcome (App.wechat_callback (lib := sample_lib) app_negative_limit network_down
                post_hello)
     = Ok (app_reply (u8 "你说的是：{"))
  /\ text_field (app_reply (u8 "你说的是：{")) = Some (PStr (u8 "你说的是：{"))
  /\ length (u8 "你说的是：{") = 6
  /\ ~ (Z.of_nat (length (u8 "你说的是：{")) <= App.MAX_REPLY_LEN app_negative_limit)%Z.
Proof.
  split; [reflexivity |]. split; [reflexivity |]. split; [reflexivity |].
  split; [reflexivity |].
  change (Z.of_nat (length (u8 "你说的是：{"))) with 6%Z.
  change (App.MAX_REPLY_LEN app_negative_limit) with (-1)%Z. lia.
Qed.



Lemma hello_without_secret_or_key_witness :
  json_loads (PyLib := sample_lib) (wire_body post_hello) = Some hello_payload
  /\ served_status
       (Qpp.wechat_callback (lib := sample_lib) qpp_defaults network_down post_hello)
     = 200%Z
  /\ outcome (App.ask_openai app_defaults network_down (u8 "hello"))
     = Ok (u8 "你说的是：hello").
Proof.
  destruct (hello_without_secret_or_key (lib := sample_lib) network_down
              app_defaults qpp_defaults post_hello) as [Hqpp Happ].
  split; [reflexivity |]. split.
  - unfold served_status. rewrite (proj1 (Hqpp eq_refl eq_refl eq_refl)). reflexivity.
  - destruct (Happ eq_refl) as (_ & Hecho & _). now rewrite Hecho.
Defined.

(** C9 (counterexample).  qpp.py, with neither secret nor key, answers the
    POST of [{"text":"hello"}] with a [text] that does not contain
    "hello". *)
Lemma qpp_reply_does_not_contain_hello :
  Qpp.WEBHOOK_SECRET qpp_defaults = []
  /\ Qpp.OPENAI_API_KEY qpp_defaults = None
  /\ outcome (Qpp.wechat_callback (lib := sample_lib) qpp_defaults network_down post_hello)
     = Ok (mk_http
             (PDict [(u8 "text", PStr (u8 "未配置 OPENAI_API_KEY"));
                     (u8 "meta", PDict [(u8 "echo", PStr (u8 "hello"));
                                        (u8 "model", PStr (u8 "gpt-4o-mini"))])])
             200)
  /\ contains (u8 "未配置 OPENAI_API_KEY") (u8 "hello") = false.
Proof. repeat split. Qed.

Lemma extractor_raises_on_true_parent_witness :
  json_loads (PyLib := sample_lib) (wire_body post_true_parent) = Some true_parent_payload
  /\ served_status
       (Qpp.wechat_callback (lib := sample_lib) qpp_defaults network_down post_true_parent)
     = 500%Z.
Proof.
  split; [reflexivity |].
  exact (proj2 (proj2 (proj2 (extractor_raises_on_true_parent (lib := sample_lib)
                                network_down post_true_parent None eq_refl)))).
Defined.

(** ** Further properties of the relay *)

(** X1.  The guard [not user_query] of both handlers is never true: whatever
    payload the extractor returns on, its result cut to 2000 characters is
    not the empty string. *)
Theorem user_query_is_never_empty {lib : PyLib} (payload : pyval) (q : pystr) :
  (App.user_query_of payload = Ok q -> q <> [])
  /\ (Qpp.user_query_of payload = Ok q -> q <> []).
Proof.
  split; intros Hq.
  - pose proof (app_user_query_nonempty _ _ Hq) as Ht. intros ->. discriminate.
  - pose proof (qpp_user_query_nonempty _ _ Hq) as Ht. intros ->. discriminate.
Qed.

(** X2.  Signature verification, case by case, in both files: no secret
    configured, every request verifies; a secret configured and the header
    absent or empty, refused; and, the secret being one that
    [encode("utf-8")] accepts, the header equal to the hexadecimal
    HMAC-SHA256 of the body under the secret, accepted; any other header
    value made of ASCII characters, refused. *)
Theorem verify_signature_cases {lib : PyLib}
    (secret : pystr) (raw : list byte) (hs : list (pystr * pystr))
    (key model : pystr) (max_len timeout : Z) (api_key : option pystr) :
  let sig := headers_get hs (u8 "X-Signature") [] in
  let mac := hexdigest (encode_utf8 secret) raw in
  let app := App.verify_signature (App.mk_config key model secret max_len timeout) raw hs in
  let qpp := Qpp.verify_signature (Qpp.mk_config api_key secret) raw hs in
  app = qpp
  /\ (secret = [] -> app = Ok true)
  /\ (secret <> [] -> sig = [] -> app = Ok false)
  /\ (secret <> [] -> encodable secret = true -> sig = mac -> app = Ok true)
  /\ (secret <> [] -> encodable secret = true -> sig <> mac -> is_ascii sig = true ->
      app = Ok false).
Proof.
  cbv zeta. rewrite app_verify_with, qpp_verify_with. cbn [App.WEBHOOK_SECRET].
  split; [reflexivity |]. split; [| split; [| split]].
  - intros ->. apply verify_disabled.
  - intros Hs Hh. now apply verify_missing_header.
  - intros Hs _ Hh. now apply verify_correct_digest.
  - intros Hs _ Hh Ha. now apply verify_wrong_digest.
Qed.

Lemma verify_signature_cases_witness :
  encodable (u8 "s3cret") = true
  /\ App.verify_signature (lib := sample_lib) app_with_secret
       (wire_body post_hello_signed) (headers post_hello_signed) = Ok true
  /\ App.verify_signature (lib := sample_lib) app_with_secret
       (wire_body post_hello) [(u8 "X-Signature", u8 "abc")] = Ok false.
Proof.
  destruct (verify_signature_cases (lib := sample_lib) (u8 "s3cret")
              (wire_body post_hello_signed) (headers post_hello_signed)
              [] (u8 "gpt-4o-mini") 1500 30 None)
    as (_ & _ & _ & Hright & _).
  destruct (verify_signature_cases (lib := sample_lib) (u8 "s3cret")
              (wire_body post_hello) [(u8 "X-Signature", u8 "abc")]
              [] (u8 "gpt-4o-mini") 1500 30 None)
    as (_ & _ & _ & _ & Hwrong).
  split; [reflexivity |]. split.
  - refine (Hright _ eq_refl _); [discriminate | vm_compute; reflexivity].
  - refine (Hwrong _ eq_refl _ eq_refl); [discriminate |].
    intros H. apply (f_equal (@length codepoint)) in H. vm_compute in H. discriminate.
Defined.

(** X3.  The completion client of either file returns a string whatever
    the network does: it never raises. *)
Theorem ask_openai_never_raises (net : requests_post_t)
    (acfg : App.Config) (qcfg : Qpp.Config) (prompt : pystr) :
  (exists s, outcome (App.ask_openai acfg net prompt) = Ok s)
  /\ (exists s, outcome (Qpp.ask_openai qcfg net prompt) = Ok s).
Proof.
  split.
  - destruct (app_ask_openai_returns net acfg prompt) as (s & [-> | [_ ->]]);
      now exists s.
  - destruct (qpp_ask_openai_returns net qcfg prompt) as (s & ->). now exists s.
Qed.

(** X4.  On an object payload whose [message] and [nlpResult] are each
    absent, false or an object, and none of whose five locations holds a string
    that is not empty once trimmed, the extractor of either file returns
    the JSON serialization of the whole payload. *)
Theorem extract_falls_back_to_serialization {lib : PyLib} (d : pydict) :
  parents_ok d = true ->
  (forall loc, candidate loc d = None) ->
  App.extract_user_query (PDict d) = Ok (json_dumps (PDict d))
  /\ Qpp.extract_user_query (PDict d) = Ok (json_dumps (PDict d)).
Proof.
  intros Hp Hnone. rewrite (app_extract_spec d Hp), (qpp_extract_spec d Hp).
  unfold spec_order, qpp_order, first_located. now rewrite !Hnone.
Qed.

Lemma extract_falls_back_to_serialization_witness :
  App.extract_user_query (lib := sample_lib)
    (PDict [(u8 "text", PStr (u8 "   ")); (u8 "n", PInt 7)])
  = Ok ([0x7B; 0x22]%N ++ u8 "text" ++ [0x22]%N ++ u8 ": " ++ [0x22]%N ++ u8 "   "
        ++ [0x22]%N ++ u8 ", " ++ [0x22]%N ++ u8 "n" ++ [0x22]%N ++ u8 ": 7}").
Proof.
  refine (eq_trans
            (proj1 (extract_falls_back_to_serialization (lib := sample_lib)
                      [(u8 "text", PStr (u8 "   ")); (u8 "n", PInt 7)] eq_refl _))
            eq_refl).
  intros loc. now destruct loc.
Defined.

(** A payload with only [message.text] set: both files return it. *)
Theorem extract_message_text {lib : PyLib} :
  let payload := PDict [(u8 "message", PDict [(u8 "text", PStr (u8 "weather today"))])] in
  App.extract_user_query payload = Ok (u8 "weather today")
  /\ Qpp.extract_user_query payload = Ok (u8 "weather today").
Proof. split; reflexivity. Qed.

(** X6.  qpp.py answers a body that is not JSON with 400 and
    [{"code": 400, "msg": "bad json"}], once the signature has passed,
    without extracting a query or calling the client. *)
Theorem qpp_bad_json_is_400 {lib : PyLib} (net : requests_post_t)
    (cfg : Qpp.Config) (request : Request) :
  Qpp.verify_signature cfg (wire_body request) (headers request) = Ok true ->
  json_loads (wire_body request) = None ->
  Qpp.wechat_callback cfg net request
  = ([Ev_get_json],
     Ok (mk_http (PDict [(u8 "code", PInt 400); (u8 "msg", PStr (u8 "bad json"))]) 400)).
Proof.
  intros Hv Hj. now rewrite qpp_run, Hv, Hj.
Qed.

Lemma qpp_bad_json_is_400_witness :
  served_status
    (Qpp.wechat_callback (lib := sample_lib) qpp_defaults network_down (mk_request [] []))
  = 400%Z.
Proof.
  unfold served_status.
  now rewrite (qpp_bad_json_is_400 (lib := sample_lib) network_down qpp_defaults
                 (mk_request [] []) eq_refl eq_refl).
Defined.

(** ** The model on known values *)

Example strip_trims_both_ends : strip (u8 "  a b  ") = u8 "a b".
Proof. reflexivity. Qed.

Example slice_counts_from_the_end : slice_to (u8 "hello") (-1) = u8 "hell".
Proof. reflexivity. Qed.

Example dumps_nested :
  json_dumps (lib := sample_lib)
    (PDict [(u8 "a", PInt (-12)); (u8 "b", PList [PNone; PBool true; PStr (u8 "x\y")])])
  = u8 "{" ++ [0x22]%N ++ u8 "a" ++ [0x22]%N ++ u8 ": -12, " ++ [0x22]%N ++ u8 "b"
    ++ [0x22]%N ++ u8 ": [null, true, " ++ [0x22]%N ++ u8 "x\\y" ++ [0x22]%N ++ u8 "]}".
Proof. reflexivity. Qed.

Example header_names_ignore_case :
  headers_get [(u8 "x-signature", u8 "abc")] (u8 "X-Signature") [] = u8 "abc".
Proof. reflexivity. Qed.

(** What app.py makes of a POST of [{"text":"hello"}]: the body it
    decodes is [{}]. *)
Example app_answers_the_empty_object :
  App.wechat_callback (lib := sample_lib) app_defaults network_down post_hello
  = ([Ev_get_json; Ev_extract_user_query (PDict []); Ev_ask_openai (u8 "{}")],
     Ok (app_reply (u8 "你说的是：{}"))).
Proof. reflexivity. Qed.

(** * More of the two files *)

(** ** Trimming *)

Lemma lstrip_starts_clean (s : pystr) : starts_clean (lstrip s) = true.
Proof.
  induction s as [| c r IH]; simpl; [reflexivity |].
  destruct (isspace c) eqn:Hc; [exact IH |]. simpl. now rewrite Hc.
Qed.

Lemma lstrip_clean (s : pystr) : starts_clean s = true -> lstrip s = s.
Proof.
  destruct s as [| c r]; simpl; [reflexivity |].
  now destruct (isspace c).
Qed.

Lemma lstrip_suffix (s : pystr) : exists pre, s = pre ++ lstrip s /\ blank pre = true.
Proof.
  induction s as [| c r (pre & Hr & Hb)]; simpl.
  - now exists [].
  - destruct (isspace c) eqn:Hc.
    + exists (c :: pre). simpl. rewrite Hc, Hb. split; [now f_equal | reflexivity].
    + now exists [].
Qed.

Lemma lstrip_blank (s : pystr) : blank s = true -> lstrip s = [].
Proof.
  induction s as [| c r IH]; simpl; [reflexivity |].
  destruct (isspace c); simpl; [exact IH | discriminate].
Qed.

Lemma rstrip_prefix (s : pystr) : exists suf, s = rstrip s ++ suf.
Proof.
  unfold rstrip. destruct (lstrip_suffix (rev s)) as (pre & Hs & _).
  exists (rev pre). rewrite <- rev_app_distr, <- Hs. now rewrite rev_involutive.
Qed.

Lemma rstrip_ends_clean (s : pystr) : ends_clean (rstrip s) = true.
Proof.
  unfold ends_clean, rstrip. rewrite rev_involutive. apply lstrip_starts_clean.
Qed.

Lemma rstrip_starts_clean (s : pystr) :
  starts_clean s = true -> starts_clean (rstrip s) = true.
Proof.
  intros Hs. destruct (rstrip_prefix s) as (suf & Heq).
  destruct (rstrip s) as [| c r]; [reflexivity |].
  rewrite Heq in Hs. exact Hs.
Qed.

Lemma strip_clean (s : pystr) :
  starts_clean (strip s) = true /\ ends_clean (strip s) = true.
Proof.
  unfold strip. split.
  - apply rstrip_starts_clean, lstrip_starts_clean.
  - apply rstrip_ends_clean.
Qed.

Lemma strip_fixed (s : pystr) :
  starts_clean s = true -> ends_clean s = true -> strip s = s.
Proof.
  intros Hs He. unfold strip, rstrip. rewrite (lstrip_clean s Hs).
  rewrite (lstrip_clean (rev s) He). apply rev_involutive.
Qed.

Lemma strip_blank (s : pystr) : blank s = true -> strip s = [].
Proof.
  intros Hb. unfold strip. now rewrite (lstrip_blank s Hb).
Qed.

Lemma first_candidate_stripped (cs : list pyval) (s : pystr) :
  first_candidate cs = Some s -> exists t, s = strip t.
Proof.
  induction cs as [| c cs IH]; simpl; [discriminate |].
  destruct c as [| b | z | x | t | l | m]; trivial.
  destruct (str_truthy (strip t)); trivial.
  intros [= <-]. now exists t.
Qed.

(** ** More of the extractor *)

Section ExtractorMore.
Context {lib : PyLib}.

Lemma json_dumps_object_clean (d : pydict) :
  starts_clean (json_dumps (PDict d)) = true /\ ends_clean (json_dumps (PDict d)) = true.
Proof.
  unfold json_dumps, ends_clean. cbn [dumps_value].
  rewrite !rev_app_distr.
  change (u8 "{") with [0x7B%N]. change (rev (u8 "}")) with [0x7D%N].
  split; reflexivity.
Qed.

Lemma app_extract_kind (payload : pyval) (s : pystr) :
  App.extract_user_query payload = Ok s ->
  (exists t, s = strip t) \/ (exists d, s = json_dumps (PDict d)).
Proof.
  unfold App.extract_user_query.
  destruct payload as [| b | z | x | t | l | d]; try discriminate.
  cbn [get rbind].
  destruct (get (py_or (dict_get d (u8 "message") PNone) (PDict [])) _ _);
    cbn [rbind]; [| discriminate].
  destruct (get (py_or (dict_get d (u8 "nlpResult") PNone) (PDict [])) _ _);
    cbn [rbind]; [| discriminate].
  destruct (first_candidate _) eqn:Hc; intros [= <-].
  - left. exact (first_candidate_stripped _ _ Hc).
  - right. now exists d.
Qed.

Lemma qpp_extract_kind (payload : pyval) (s : pystr) :
  Qpp.extract_user_query payload = Ok s ->
  (exists t, s = strip t) \/ (exists d, s = json_dumps (PDict d)).
Proof.
  unfold Qpp.extract_user_query.
  destruct payload as [| b | z | x | t | l | d]; try discriminate.
  cbn [get rbind].
  destruct (get (py_or (dict_get d (u8 "nlpResult") PNone) (PDict [])) _ _);
    cbn [rbind]; [| discriminate].
  destruct (get (py_or (dict_get d (u8 "message") PNone) (PDict [])) _ _);
    cbn [rbind]; [| discriminate].
  destruct (first_candidate _) eqn:Hc; intros [= <-].
  - left. exact (first_candidate_stripped _ _ Hc).
  - right. now exists d.
Qed.

Lemma kind_is_trimmed (s : pystr) :
  (exists t, s = strip t) \/ (exists d, s = json_dumps (PDict d)) ->
  starts_clean s = true /\ ends_clean s = true.
Proof.
  intros [(t & ->) | (d & ->)]; [apply strip_clean | apply json_dumps_object_clean].
Qed.

Lemma candidate_wrap (loc loc' : location) (s : pystr) :
  candidate loc' (wrap loc s)
  = match loc, loc' with
    | At_query, At_query | At_text, At_text | At_content, At_content
    | At_message_text, At_message_text | At_nlpResult_text, At_nlpResult_text =>
        qualifies (Some (PStr s))
    | _, _ => None
    end.
Proof. destruct loc, loc'; reflexivity. Qed.

Lemma first_located_wrap (order : list location) (loc : location) (s : pystr) :
  In loc order ->
  first_located order (wrap loc s) = qualifies (Some (PStr s)).
Proof.
  induction order as [| l order IH]; [intros [] |].
  intros Hin. cbn [first_located]. rewrite candidate_wrap.
  destruct (qualifies (Some (PStr s))) as [t |] eqn:Hq.
  - destruct loc, l; try reflexivity;
      (destruct Hin as [Heq | Hin]; [discriminate Heq | exact (IH Hin)]).
  - assert (Hrest : first_located order (wrap loc s) = None).
    { clear IH Hin. induction order as [| l' order IH']; [reflexivity |].
      cbn [first_located]. rewrite candidate_wrap, Hq, IH'. now destruct loc, l'. }
    rewrite Hrest. now destruct loc, l.
Qed.

(** X5.  A payload that holds a text at one of the five locations and
    nothing else: either file returns the text trimmed when that is not
    empty, and otherwise (a text of whitespace only) the serialized
    payload. *)
Theorem extract_single_location (loc : location) (t : pystr) :
  let expected :=
    if str_truthy (strip t) then strip t else json_dumps (PDict (wrap loc t)) in
  App.extract_user_query (PDict (wrap loc t)) = Ok expected
  /\ Qpp.extract_user_query (PDict (wrap loc t)) = Ok expected.
Proof.
  cbv zeta.
  assert (Hp : parents_ok (wrap loc t) = true) by now destruct loc.
  rewrite (app_extract_spec _ Hp), (qpp_extract_spec _ Hp).
  rewrite !first_located_wrap by (destruct loc; simpl; tauto).
  cbn [qualifies]. now destruct (str_truthy (strip t)).
Qed.

(** X7.  Whatever either extractor returns is trimmed: it is not empty and
    has no whitespace at its start or at its end. *)
Theorem extracted_query_is_trimmed (payload : pyval) (s : pystr) :
  (App.extract_user_query payload = Ok s ->
   s <> [] /\ starts_clean s = true /\ ends_clean s = true)
  /\ (Qpp.extract_user_query payload = Ok s ->
      s <> [] /\ starts_clean s = true /\ ends_clean s = true).
Proof.
  split; intros Hs.
  - split; [| exact (kind_is_trimmed _ (app_extract_kind _ _ Hs))].
    pose proof (app_extract_nonempty _ _ Hs). intros ->. discriminate.
  - split; [| exact (kind_is_trimmed _ (qpp_extract_kind _ _ Hs))].
    pose proof (qpp_extract_nonempty _ _ Hs). intros ->. discriminate.
Qed.

(** X8.  Extraction is stable under re-wrapping: when an extractor returns
    [s] on some payload, the object holding [s] at any one of the five
    locations extracts to [s] again, in both files. *)
Theorem extract_round_trip (payload : pyval) (s : pystr) (loc : location) :
  App.extract_user_query payload = Ok s \/ Qpp.extract_user_query payload = Ok s ->
  App.extract_user_query (PDict (wrap loc s)) = Ok s
  /\ Qpp.extract_user_query (PDict (wrap loc s)) = Ok s.
Proof.
  intros Hs.
  assert (Hk : str_truthy s = true /\ starts_clean s = true /\ ends_clean s = true).
  { destruct Hs as [Hs | Hs].
    - split; [exact (app_extract_nonempty _ _ Hs) |].
      exact (kind_is_trimmed _ (app_extract_kind _ _ Hs)).
    - split; [exact (qpp_extract_nonempty _ _ Hs) |].
      exact (kind_is_trimmed _ (qpp_extract_kind _ _ Hs)). }
  destruct Hk as (Hne & Hst & Hen).
  assert (Hp : parents_ok (wrap loc s) = true) by now destruct loc.
  rewrite (app_extract_spec _ Hp), (qpp_extract_spec _ Hp).
  rewrite !first_located_wrap by (destruct loc; simpl; tauto).
  cbn [qualifies]. rewrite (strip_fixed s Hst Hen), Hne. now split.
Qed.
End ExtractorMore.

(** ** More of signature verification *)

Section SignatureMore.
Context {lib : PyLib}.
Variable net : requests_post_t.

Lemma verify_with_sound (secret : pystr) (raw : list byte) (hs : list (pystr * pystr)) :
  secret <> [] ->
  verify_with secret raw hs = Ok true ->
  headers_get hs (u8 "X-Signature") [] = hexdigest (encode_utf8 secret) raw.
Proof.
  intros Hs Hv.
  destruct (list_eq_dec N.eq_dec (headers_get hs (u8 "X-Signature") [])
              (hexdigest (encode_utf8 secret) raw)) as [Heq | Hne]; [exact Heq |].
  destruct (is_ascii (headers_get hs (u8 "X-Signature") [])) eqn:Ha.
  - rewrite (verify_wrong_digest secret raw hs Hs Hne Ha) in Hv. discriminate.
  - rewrite (verify_non_ascii_header secret raw hs Hs Ha) in Hv. discriminate.
Qed.

(** X9.  With a secret configured, [verify_signature] returns true only for
    a request whose [X-Signature] header is the hexadecimal HMAC-SHA256 of
    its body under the secret: no other header value, of any characters,
    is accepted. *)
Theorem verify_signature_is_sound (acfg : App.Config) (qcfg : Qpp.Config)
    (raw : list byte) (hs : list (pystr * pystr)) :
  (App.WEBHOOK_SECRET acfg <> [] ->
   App.verify_signature acfg raw hs = Ok true ->
   headers_get hs (u8 "X-Signature") []
   = hexdigest (encode_utf8 (App.WEBHOOK_SECRET acfg)) raw)
  /\ (Qpp.WEBHOOK_SECRET qcfg <> [] ->
      Qpp.verify_signature qcfg raw hs = Ok true ->
      headers_get hs (u8 "X-Signature") []
      = hexdigest (encode_utf8 (Qpp.WEBHOOK_SECRET qcfg)) raw).
Proof.
  split; intros Hs Hv.
  - rewrite app_verify_with in Hv. now apply verify_with_sound.
  - rewrite qpp_verify_with in Hv. now apply verify_with_sound.
Qed.

(** X10.  With a secret configured, a request whose [X-Signature] header is
    not the digest of its body gets nowhere in either handler: nothing is
    decoded, extracted, asked or posted, and what is served is 401, or 500
    when the header has a character outside ASCII; never 200. *)
Theorem unsigned_request_is_stopped (acfg : App.Config) (qcfg : Qpp.Config)
    (request : Request) :
  (App.WEBHOOK_SECRET acfg <> [] ->
   headers_get (headers request) (u8 "X-Signature") []
   <> hexdigest (encode_utf8 (App.WEBHOOK_SECRET acfg)) (wire_body request) ->
   log_of (App.wechat_callback acfg net request) = []
   /\ (served_status (App.wechat_callback acfg net request) = 401%Z
       \/ served_status (App.wechat_callback acfg net request) = 500%Z))
  /\ (Qpp.WEBHOOK_SECRET qcfg <> [] ->
      headers_get (headers request) (u8 "X-Signature") []
      <> hexdigest (encode_utf8 (Qpp.WEBHOOK_SECRET qcfg)) (wire_body request) ->
      log_of (Qpp.wechat_callback qcfg net request) = []
      /\ (served_status (Qpp.wechat_callback qcfg net request) = 401%Z
          \/ served_status (Qpp.wechat_callback qcfg net request) = 500%Z)).
Proof.
  split; intros Hs Hne.
  - rewrite app_run. unfold served_status.
    destruct (App.verify_signature acfg _ _) as [[|] | e] eqn:Hv; run.
    + rewrite app_verify_with in Hv. now elim Hne; apply verify_with_sound.
    + split; [reflexivity | now left].
    + split; [reflexivity | now right].
  - rewrite qpp_run. unfold served_status.
    destruct (Qpp.verify_signature qcfg _ _) as [[|] | e] eqn:Hv; run.
    + rewrite qpp_verify_with in Hv. now elim Hne; apply verify_with_sound.
    + split; [reflexivity | now left].
    + split; [reflexivity | now right].
Qed.
End SignatureMore.

(** ** More of the completion client *)

Lemma str_truthy_app (a b : pystr) : str_truthy a = true -> str_truthy (a ++ b) = true.
Proof. destruct a; [discriminate | reflexivity]. Qed.

Lemma str_truthy_nonempty (s : pystr) : str_truthy s = true -> s <> [].
Proof. intros Hs ->. discriminate. Qed.

Lemma content_found (d c m : pydict) (rest : list pyval) (v : pyval) :
  lookup d (u8 "choices") = Some (PList (PDict c :: rest)) ->
  lookup c (u8 "message") = Some (PDict m) ->
  lookup m (u8 "content") = Some v ->
  first_choice_content (PDict d) = strip_method v.
Proof.
  intros Hd Hc Hm. unfold first_choice_content. cbn [get rbind]. unfold dict_get.
  rewrite Hd. cbn [item0 rbind get]. unfold dict_get. rewrite Hc. cbn [rbind get].
  unfold dict_get. now rewrite Hm.
Qed.

Lemma content_lacking (d : pydict) :
  lacks_content d -> first_choice_content (PDict d) = Ok [].
Proof.
  unfold first_choice_content. cbn [get rbind]. unfold dict_get.
  intros [Hd | (c & rest & Hd & [Hc | (m & Hc & Hm)])]; rewrite Hd;
    cbn [item0 rbind get]; unfold dict_get; try rewrite Hc; cbn [rbind get];
    unfold dict_get; try rewrite Hm; reflexivity.
Qed.

Section ClientMore.
Variable net : requests_post_t.

(** What either client returns once the upstream has answered with a body
    that decodes and whose status is accepted. *)
Lemma app_ask_openai_decoded (cfg : App.Config) (q : pystr) (r : Response) (resp : pyval) :
  str_truthy (App.OPENAI_API_KEY cfg) = true ->
  net (App.completion_call cfg q) = Ok r ->
  raise_for_status r = Ok tt ->
  r_json r = Ok resp ->
  outcome (App.ask_openai cfg net q)
  = match first_choice_content resp with
    | Ok ans => Ok (if str_truthy ans then ans else u8 "（无回复）")
    | Raise e => Ok (failure_text e)
    end.
Proof.
  intros Hk Hp Hs Hj. unfold App.ask_openai. rewrite Hk. run.
  rewrite Hp. run. rewrite Hs. run. rewrite Hj. run.
  destruct (first_choice_content resp); reflexivity.
Qed.

Lemma qpp_ask_openai_decoded (cfg : Qpp.Config) (q : pystr) (r : Response) (resp : pyval) :
  net (Qpp.completion_call cfg q) = Ok r ->
  raise_for_status r = Ok tt ->
  r_json r = Ok resp ->
  outcome (Qpp.ask_openai cfg net q)
  = match first_choice_content resp with
    | Ok ans => Ok (if str_truthy ans then ans else u8 "（无回复）")
    | Raise e => Ok (failure_text e)
    end.
Proof.
  intros Hp Hs Hj. unfold Qpp.ask_openai. run.
  rewrite Hp. run. rewrite Hs. run. rewrite Hj. run.
  destruct (first_choice_content resp); reflexivity.
Qed.

(** X11.  When the upstream answers with an accepted status and a JSON
    object whose first choice has a message with a string [content], either
    client returns that content trimmed, or the placeholder when the
    trimmed content is empty; the other choices and the other keys of the
    body are not read. *)
Theorem completion_content_is_returned (acfg : App.Config) (qcfg : Qpp.Config)
    (q : pystr) (r : Response) (d c m : pydict) (rest : list pyval) (s : pystr) :
  raise_for_status r = Ok tt ->
  r_json r = Ok (PDict d) ->
  lookup d (u8 "choices") = Some (PList (PDict c :: rest)) ->
  lookup c (u8 "message") = Some (PDict m) ->
  lookup m (u8 "content") = Some (PStr s) ->
  (str_truthy (App.OPENAI_API_KEY acfg) = true ->
   net (App.completion_call acfg q) = Ok r ->
   outcome (App.ask_openai acfg net q)
   = Ok (if str_truthy (strip s) then strip s else u8 "（无回复）"))
  /\ (net (Qpp.completion_call qcfg q) = Ok r ->
      outcome (Qpp.ask_openai qcfg net q)
      = Ok (if str_truthy (strip s) then strip s else u8 "（无回复）")).
Proof.
  intros Hs Hj Hd Hc Hm. split.
  - intros Hk Hp. rewrite (app_ask_openai_decoded _ _ _ _ Hk Hp Hs Hj).
    now rewrite (content_found _ _ _ _ _ Hd Hc Hm).
  - intros Hp. rewrite (qpp_ask_openai_decoded _ _ _ _ Hp Hs Hj).
    now rewrite (content_found _ _ _ _ _ Hd Hc Hm).
Qed.

(** X12.  A decoded completion that is an object with nothing to read -- no
    [choices] key, or a first choice without [message], or a message
    without [content] -- is not a failure for either client: the defaults
    of the three lookups apply and the reply is the placeholder. *)
Theorem incomplete_completion_is_no_reply (acfg : App.Config) (qcfg : Qpp.Config)
    (q : pystr) (r : Response) (d : pydict) :
  raise_for_status r = Ok tt ->
  r_json r = Ok (PDict d) ->
  lacks_content d ->
  (str_truthy (App.OPENAI_API_KEY acfg) = true ->
   net (App.completion_call acfg q) = Ok r ->
   outcome (App.ask_openai acfg net q) = Ok (u8 "（无回复）"))
  /\ (net (Qpp.completion_call qcfg q) = Ok r ->
      outcome (Qpp.ask_openai qcfg net q) = Ok (u8 "（无回复）")).
Proof.
  intros Hs Hj Hd. split.
  - intros Hk Hp. rewrite (app_ask_openai_decoded _ _ _ _ Hk Hp Hs Hj).
    now rewrite (content_lacking d Hd).
  - intros Hp. rewrite (qpp_ask_openai_decoded _ _ _ _ Hp Hs Hj).
    now rewrite (content_lacking d Hd).
Qed.

(** X13.  A [content] that is present but is not a string (null, as for a
    completion without text, a number, an object) is a failure for either
    client, as is an empty [choices] list: the reply is the failure text of
    the AttributeError on [strip], respectively of the IndexError. *)
Theorem unreadable_content_is_a_failure (acfg : App.Config) (qcfg : Qpp.Config)
    (q : pystr) (r : Response) (d : pydict) :
  raise_for_status r = Ok tt ->
  r_json r = Ok (PDict d) ->
  (forall c m rest v,
      lookup d (u8 "choices") = Some (PList (PDict c :: rest)) ->
      lookup c (u8 "message") = Some (PDict m) ->
      lookup m (u8 "content") = Some v ->
      (forall s, v <> PStr s) ->
      (str_truthy (App.OPENAI_API_KEY acfg) = true ->
       net (App.completion_call acfg q) = Ok r ->
       outcome (App.ask_openai acfg net q) = Ok (failure_text (no_attribute v "strip")))
      /\ (net (Qpp.completion_call qcfg q) = Ok r ->
          outcome (Qpp.ask_openai qcfg net q)
          = Ok (failure_text (no_attribute v "strip"))))
  /\ (lookup d (u8 "choices") = Some (PList []) ->
      (str_truthy (App.OPENAI_API_KEY acfg) = true ->
       net (App.completion_call acfg q) = Ok r ->
       outcome (App.ask_openai acfg net q)
       = Ok (u8 "调用大模型失败：list index out of range"))
      /\ (net (Qpp.completion_call qcfg q) = Ok r ->
          outcome (Qpp.ask_openai qcfg net q)
          = Ok (u8 "调用大模型失败：list index out of range"))).
Proof.
  intros Hs Hj. split.
  - intros c m rest v Hd Hc Hm Hv.
    assert (Hraise : first_choice_content (PDict d) = Raise (no_attribute v "strip")).
    { rewrite (content_found _ _ _ _ _ Hd Hc Hm).
      destruct v; try reflexivity. now elim (Hv s). }
    split.
    + intros Hk Hp. rewrite (app_ask_openai_decoded _ _ _ _ Hk Hp Hs Hj).
      now rewrite Hraise.
    + intros Hp. rewrite (qpp_ask_openai_decoded _ _ _ _ Hp Hs Hj).
      now rewrite Hraise.
  - intros Hd.
    assert (Hraise : first_choice_content (PDict d)
                     = Raise (mk_exn IndexError (u8 "list index out of range"))).
    { unfold first_choice_content. cbn [get rbind]. unfold dict_get. now rewrite Hd. }
    split.
    + intros Hk Hp. rewrite (app_ask_openai_decoded _ _ _ _ Hk Hp Hs Hj).
      now rewrite Hraise.
    + intros Hp. rewrite (qpp_ask_openai_decoded _ _ _ _ Hp Hs Hj).
      now rewrite Hraise.
Qed.

Lemma app_answer_nonempty (cfg : App.Config) (q s : pystr) :
  outcome (App.ask_openai cfg net q) = Ok s -> str_truthy s = true.
Proof.
  unfold App.ask_openai.
  destruct (str_truthy (App.OPENAI_API_KEY cfg)); run;
    [| intros [= <-]; first [reflexivity | now apply str_truthy_app]].
  destruct (net (App.completion_call cfg q)) as [r | e]; run;
    [| intros [= <-]; first [reflexivity | now apply str_truthy_app]].
  destruct (raise_for_status r) as [[] | e]; run;
    [| intros [= <-]; first [reflexivity | now apply str_truthy_app]].
  destruct (r_json r) as [resp | e]; run;
    [| intros [= <-]; first [reflexivity | now apply str_truthy_app]].
  destruct (first_choice_content resp) as [ans | e]; run;
    [| intros [= <-]; first [reflexivity | now apply str_truthy_app]].
  intros [= <-]. now destruct (str_truthy ans) eqn:Ha.
Qed.

Lemma qpp_answer_nonempty (cfg : Qpp.Config) (q s : pystr) :
  outcome (Qpp.ask_openai cfg net q) = Ok s -> str_truthy s = true.
Proof.
  unfold Qpp.ask_openai. run.
  destruct (net (Qpp.completion_call cfg q)) as [r | e]; run;
    [| intros [= <-]; first [reflexivity | now apply str_truthy_app]].
  destruct (raise_for_status r) as [[] | e]; run;
    [| intros [= <-]; first [reflexivity | now apply str_truthy_app]].
  destruct (r_json r) as [resp | e]; run;
    [| intros [= <-]; first [reflexivity | now apply str_truthy_app]].
  destruct (first_choice_content resp) as [ans | e]; run;
    [| intros [= <-]; first [reflexivity | now apply str_truthy_app]].
  intros [= <-]. now destruct (str_truthy ans) eqn:Ha.
Qed.
End ClientMore.

(** ** More of the handlers *)

Lemma linear_log_one_post (call_for : pystr -> PostCall) (l : list event) :
  linear_log call_for l -> length (filter is_post l) <= 1.
Proof. intros []; simpl; lia. Qed.

(** The log and the outcome of a run that is given as a pair. *)
Ltac peel :=
  repeat match goal with
    | |- context [log_of (?a, ?b)] => change (log_of (a, b)) with a
    | |- context [outcome (?a, ?b)] => change (outcome (a, b)) with b
    end.

Section HandlerMore.
Context {lib : PyLib}.
Variable net : requests_post_t.

(** The calls of the client: its prompt, then the POST when there is a
    key (app.py), or always (qpp.py). *)
Lemma app_ask_openai_log_of (cfg : App.Config) (q : pystr) :
  log_of (App.ask_openai cfg net q)
  = if str_truthy (App.OPENAI_API_KEY cfg)
    then [Ev_ask_openai q; Ev_requests_post (App.completion_call cfg q)]
    else [Ev_ask_openai q].
Proof.
  destruct (app_ask_openai_returns net cfg q) as (s & [Ha | [Hk Ha]]).
  - destruct (str_truthy (App.OPENAI_API_KEY cfg)) eqn:Hk; [| now rewrite Ha].
    unfold App.ask_openai. rewrite Hk. run.
    destruct (net (App.completion_call cfg q)) as [r | e]; run; [| reflexivity].
    destruct (raise_for_status r) as [[] | e]; run; [| reflexivity].
    destruct (r_json r) as [resp | e]; run; [| reflexivity].
    destruct (first_choice_content resp) as [ans | e]; run; reflexivity.
  - now rewrite Ha, Hk.
Qed.

Lemma qpp_ask_openai_log_of (cfg : Qpp.Config) (q : pystr) :
  log_of (Qpp.ask_openai cfg net q)
  = [Ev_ask_openai q; Ev_requests_post (Qpp.completion_call cfg q)].
Proof.
  destruct (qpp_ask_openai_returns net cfg q) as (s & Ha). now rewrite Ha.
Qed.

(** X14.  The calls of a handler run come in one order and the run stops
    after any of them: the body is decoded, the query extracted, the
    client entered, one POST sent -- the one built for the prompt the
    client was given.  So a request causes at most one POST: nothing is
    ever retried. *)
Theorem handler_log_is_linear (acfg : App.Config) (qcfg : Qpp.Config)
    (request : Request) :
  linear_log (App.completion_call acfg) (log_of (App.wechat_callback acfg net request))
  /\ linear_log (Qpp.completion_call qcfg) (log_of (Qpp.wechat_callback qcfg net request))
  /\ length (filter is_post (log_of (App.wechat_callback acfg net request))) <= 1
  /\ length (filter is_post (log_of (Qpp.wechat_callback qcfg net request))) <= 1.
Proof.
  assert (Happ : linear_log (App.completion_call acfg)
                   (log_of (App.wechat_callback acfg net request))).
  { rewrite app_run.
    destruct (App.verify_signature acfg _ _) as [[|] | e]; peel; try constructor.
    rewrite app_ask_openai_log_of.
    destruct (str_truthy (App.OPENAI_API_KEY acfg)); constructor. }
  assert (Hqpp : linear_log (Qpp.completion_call qcfg)
                   (log_of (Qpp.wechat_callback qcfg net request))).
  { rewrite qpp_run.
    destruct (Qpp.verify_signature qcfg _ _) as [[|] | e]; peel; try constructor.
    destruct (json_loads (wire_body request)) as [v |]; peel; [| constructor].
    cbv zeta.
    destruct (Qpp.user_query_of (py_or v (PDict []))) as [q | e]; peel;
      [| constructor].
    destruct (Qpp.opt_truthy (Qpp.OPENAI_API_KEY qcfg)); peel; [| constructor].
    rewrite qpp_ask_openai_log_of. constructor. }
  split; [exact Happ |]. split; [exact Hqpp |].
  split; eapply linear_log_one_post; eassumption.
Qed.

(** X15.  When a POST goes out: in app.py, exactly when the signature
    verifies and a key is configured; in qpp.py, exactly when the
    signature verifies, the body decodes, the extractor returns and a key
    is configured.  Without a key neither file ever touches the network. *)
Theorem post_is_sent_iff (acfg : App.Config) (qcfg : Qpp.Config) (request : Request) :
  ((exists call,
       In (Ev_requests_post call) (log_of (App.wechat_callback acfg net request)))
   <-> App.verify_signature acfg (wire_body request) (headers request) = Ok true
       /\ str_truthy (App.OPENAI_API_KEY acfg) = true)
  /\ ((exists call,
          In (Ev_requests_post call) (log_of (Qpp.wechat_callback qcfg net request)))
      <-> Qpp.verify_signature qcfg (wire_body request) (headers request) = Ok true
          /\ Qpp.opt_truthy (Qpp.OPENAI_API_KEY qcfg) = true
          /\ exists v q, json_loads (wire_body request) = Some v
                         /\ Qpp.user_query_of (py_or v (PDict [])) = Ok q).
Proof.
  split.
  - rewrite app_run.
    destruct (App.verify_signature acfg _ _) as [[|] | e]; peel;
      [| split; [intros (call & F); destruct F | intros [[=] _]]
       | split; [intros (call & F); destruct F | intros [[=] _]]].
    rewrite app_ask_openai_log_of.
    destruct (str_truthy (App.OPENAI_API_KEY acfg)); cbn [app]; split.
    + now intros _.
    + intros _. eexists. right. right. right. now left.
    + intros (call & [[=] | [[=] | [[=] | []]]]).
    + intros [_ [=]].
  - rewrite qpp_run.
    destruct (Qpp.verify_signature qcfg _ _) as [[|] | e]; peel;
      [| split; [intros (call & F); destruct F | intros [[=] _]]
       | split; [intros (call & F); destruct F | intros [[=] _]]].
    destruct (json_loads (wire_body request)) as [v |]; peel.
    + cbv zeta.
      destruct (Qpp.user_query_of (py_or v (PDict []))) as [q | e] eqn:Hq; peel.
      * destruct (Qpp.opt_truthy (Qpp.OPENAI_API_KEY qcfg)); peel.
        -- rewrite qpp_ask_openai_log_of. cbn [app]. split.
           ++ intros _. split; [reflexivity |]. split; [reflexivity |].
              now exists v, q.
           ++ intros _. eexists. right. right. right. now left.
        -- split; [intros (call & [[=] | [[=] | []]]) | intros (_ & [=] & _)].
      * split; [intros (call & [[=] | [[=] | []]]) |].
        intros (_ & _ & v' & q & [= <-] & Hq'). rewrite Hq in Hq'. discriminate.
    + split; [intros (call & [[=] | []]) |].
      intros (_ & _ & v & q & [=] & _).
Qed.

(** X16.  A response that carries a [text] string never carries an empty
    one: always in qpp.py, and in app.py as soon as [MAX_REPLY_LEN] is
    positive. *)
Theorem reply_text_is_never_empty (acfg : App.Config) (qcfg : Qpp.Config)
    (request : Request) (r : HttpResponse) (t : pystr) :
  text_field r = Some (PStr t) ->
  ((0 < App.MAX_REPLY_LEN acfg)%Z ->
   outcome (App.wechat_callback acfg net request) = Ok r -> t <> [])
  /\ (outcome (Qpp.wechat_callback qcfg net request) = Ok r -> t <> []).
Proof.
  intros Ht. split.
  - intros Hmax. rewrite app_run.
    destruct (App.verify_signature acfg _ _) as [[|] | e]; peel.
    + destruct (outcome (App.ask_openai acfg net (u8 "{}"))) as [a | e] eqn:Ha;
        [| discriminate].
      intros [= <-]. unfold app_reply in Ht.
      rewrite (text_field_of_text _ []) in Ht. injection Ht as <-.
      apply str_truthy_nonempty, str_truthy_slice; [exact Hmax |].
      exact (app_answer_nonempty net _ _ _ Ha).
    + intros [= <-]. vm_compute in Ht. discriminate.
    + discriminate.
  - rewrite qpp_run.
    destruct (Qpp.verify_signature qcfg _ _) as [[|] | e]; peel.
    + destruct (json_loads (wire_body request)) as [v |]; peel.
      * cbv zeta.
        destruct (Qpp.user_query_of (py_or v (PDict []))) as [q | e]; peel;
          [| discriminate].
        destruct (Qpp.opt_truthy (Qpp.OPENAI_API_KEY qcfg)); peel.
        -- destruct (outcome (Qpp.ask_openai qcfg net q)) as [a | e] eqn:Ha;
             [| discriminate].
           intros [= <-]. unfold qpp_reply in Ht.
           rewrite (text_field_of_text _ [_]) in Ht. injection Ht as <-.
           apply str_truthy_nonempty, str_truthy_slice; [lia |].
           exact (qpp_answer_nonempty net _ _ _ Ha).
        -- intros [= <-]. unfold qpp_reply in Ht.
           rewrite (text_field_of_text _ [_]) in Ht. injection Ht as <-.
           discriminate.
      * intros [= <-]. vm_compute in Ht. discriminate.
    + intros [= <-]. vm_compute in Ht. discriminate.
    + discriminate.
Qed.

(** X17.  The status a request is served.  In app.py the signature check
    decides it alone: 200 when it passes, 401 when it fails, 500 when it
    raises; nothing after the check can fail.  In qpp.py a request that
    passes the check is served 400 exactly when its body is not JSON, 500
    exactly when the extractor raises on the decoded body, and 200
    otherwise: the 400 of the empty query is never served. *)
Theorem served_status_cases (acfg : App.Config) (qcfg : Qpp.Config) (request : Request) :
  served_status (App.wechat_callback acfg net request)
  = match App.verify_signature acfg (wire_body request) (headers request) with
    | Ok true => 200%Z
    | Ok false => 401%Z
    | Raise _ => 500%Z
    end
  /\ served_status (Qpp.wechat_callback qcfg net request)
     = match Qpp.verify_signature qcfg (wire_body request) (headers request) with
       | Ok true =>
           match json_loads (wire_body request) with
           | None => 400%Z
           | Some v =>
               match Qpp.extract_user_query (py_or v (PDict [])) with
               | Ok _ => 200%Z
               | Raise _ => 500%Z
               end
           end
       | Ok false => 401%Z
       | Raise _ => 500%Z
       end.
Proof.
  unfold served_status. split.
  - rewrite app_run.
    destruct (App.verify_signature acfg _ _) as [[|] | e]; peel; try reflexivity.
    destruct (app_ask_openai_returns net acfg (u8 "{}")) as (s & [Ha | [_ Ha]]);
      now rewrite Ha.
  - rewrite qpp_run.
    destruct (Qpp.verify_signature qcfg _ _) as [[|] | e]; peel; try reflexivity.
    destruct (json_loads (wire_body request)) as [v |]; peel; [| reflexivity].
    cbv zeta. unfold Qpp.user_query_of.
    destruct (Qpp.extract_user_query (py_or v (PDict []))) as [s | e];
      cbn [rbind]; peel; [| reflexivity].
    destruct (Qpp.opt_truthy (Qpp.OPENAI_API_KEY qcfg)); peel; [| reflexivity].
    destruct (qpp_ask_openai_returns net qcfg (slice_to s 2000)) as (a & Ha).
    now rewrite Ha.
Qed.

(** X18.  Every 200 of qpp.py echoes the query it worked on: [meta.echo]
    is a non-empty text of at most 2000 characters, it is the prompt the
    client was given and the content of the user message of the POST, when
    there was one; and without a key the [text] is the fixed notice. *)
Theorem qpp_echo_is_the_prompt (qcfg : Qpp.Config) (request : Request)
    (r : HttpResponse) :
  outcome (Qpp.wechat_callback qcfg net request) = Ok r ->
  status r = 200%Z ->
  exists q,
    meta_echo r = Some (PStr q)
    /\ q <> [] /\ length q <= 2000
    /\ (forall p, In (Ev_ask_openai p) (log_of (Qpp.wechat_callback qcfg net request)) ->
        p = q)
    /\ (forall call,
           In (Ev_requests_post call) (log_of (Qpp.wechat_callback qcfg net request)) ->
           user_content call = Some (PStr q))
    /\ (Qpp.opt_truthy (Qpp.OPENAI_API_KEY qcfg) = false ->
        text_field r = Some (PStr (u8 "未配置 OPENAI_API_KEY"))).
Proof.
  rewrite qpp_run.
  destruct (Qpp.verify_signature qcfg _ _) as [[|] | e]; peel;
    [| intros [= <-]; discriminate | discriminate].
  destruct (json_loads (wire_body request)) as [v |]; peel;
    [| intros [= <-]; discriminate].
  cbv zeta.
  destruct (Qpp.user_query_of (py_or v (PDict []))) as [q | e] eqn:Hq; peel;
    [| discriminate].
  assert (Hne : q <> []) by exact (str_truthy_nonempty _ (qpp_user_query_nonempty _ _ Hq)).
  assert (Hlen : length q <= 2000).
  { destruct (qpp_user_query_inv _ _ Hq) as (s & _ & ->). apply slice_2000_length. }
  destruct (Qpp.opt_truthy (Qpp.OPENAI_API_KEY qcfg)); peel.
  - rewrite qpp_ask_openai_log_of. cbn [app].
    destruct (outcome (Qpp.ask_openai qcfg net q)) as [a | e]; [| discriminate].
    intros [= <-] _. exists q.
    split; [reflexivity |]. split; [exact Hne |]. split; [exact Hlen |].
    split; [| split; [| discriminate]].
    + intros p [[=] | [[=] | [[= <-] | [[=] | []]]]]. reflexivity.
    + intros call [[=] | [[=] | [[=] | [[= <-] | []]]]]. reflexivity.
  - intros [= <-] _. exists q.
    split; [reflexivity |]. split; [exact Hne |]. split; [exact Hlen |].
    split; [| split; [| reflexivity]].
    + intros p [[=] | [[=] | []]].
    + intros call [[=] | [[=] | []]].
Qed.

(** X19.  A body of qpp.py that decodes to something other than an object.
    A falsy value (null, false, 0, an empty string or list) is replaced by
    the empty object and answered 200 on the query [{}]; a truthy one (a
    non-empty string or list, a non-zero number, true) reaches the
    extractor as it is, which raises AttributeError on its first lookup:
    the request is served 500 and nothing is asked. *)
Theorem qpp_body_that_is_not_an_object (qcfg : Qpp.Config) (request : Request)
    (v : pyval) :
  Qpp.verify_signature qcfg (wire_body request) (headers request) = Ok true ->
  json_loads (wire_body request) = Some v ->
  (truthy v = false ->
   exists r, outcome (Qpp.wechat_callback qcfg net request) = Ok r
             /\ status r = 200%Z
             /\ meta_echo r = Some (PStr (u8 "{}")))
  /\ (truthy v = true -> (forall d, v <> PDict d) ->
      Qpp.wechat_callback qcfg net request
      = ([Ev_get_json; Ev_extract_user_query v], Raise (no_attribute v "get"))
      /\ served_status (Qpp.wechat_callback qcfg net request) = 500%Z).
Proof.
  intros Hv Hj. rewrite qpp_run, Hv, Hj. cbv zeta. unfold py_or. split.
  - intros ->.
    change (Qpp.user_query_of (PDict [])) with (Ok (A := pystr) (u8 "{}")).
    destruct (Qpp.opt_truthy (Qpp.OPENAI_API_KEY qcfg)); peel.
    + destruct (qpp_ask_openai_returns net qcfg (u8 "{}")) as (a & Ha).
      rewrite Ha. peel. eexists. split; [reflexivity |]. now split.
    + eexists. split; [reflexivity |]. now split.
  - intros -> Hd.
    assert (Hq : Qpp.user_query_of v = Raise (no_attribute v "get")).
    { destruct v; try reflexivity. now elim (Hd d). }
    rewrite Hq. now split.
Qed.

(** X20.  app.py never reads the body it is sent.  [get_data(cache=False)]
    has consumed the stream when [get_json] runs, so the handler works on
    the empty object whatever was posted: two requests on which the
    signature check agrees get the same run, the extractor is only ever
    given [{}] and the client only ever the prompt [{}]. *)
Theorem app_never_reads_the_body (acfg : App.Config) (request request' : Request) :
  (App.verify_signature acfg (wire_body request) (headers request)
   = App.verify_signature acfg (wire_body request') (headers request') ->
   App.wechat_callback acfg net request = App.wechat_callback acfg net request')
  /\ (forall b, In (Ev_extract_user_query b) (log_of (App.wechat_callback acfg net request)) ->
      b = PDict [])
  /\ (forall p, In (Ev_ask_openai p) (log_of (App.wechat_callback acfg net request)) ->
      p = u8 "{}")
  /\ (forall call,
         In (Ev_requests_post call) (log_of (App.wechat_callback acfg net request)) ->
         user_content call = Some (PStr (u8 "{}"))).
Proof.
  split; [intros Hv; now rewrite !app_run, Hv |].
  rewrite app_run.
  destruct (App.verify_signature acfg _ _) as [[|] | e]; peel;
    [| now repeat split; intros ? [] | now repeat split; intros ? []].
  rewrite app_ask_openai_log_of.
  destruct (str_truthy (App.OPENAI_API_KEY acfg)); cbn [app].
  - split; [| split].
    + intros b [[=] | [[= <-] | [[=] | [[=] | []]]]]. reflexivity.
    + intros p [[=] | [[=] | [[= <-] | [[=] | []]]]]. reflexivity.
    + intros call [[=] | [[=] | [[=] | [[= <-] | []]]]]. reflexivity.
  - split; [| split].
    + intros b [[=] | [[= <-] | [[=] | []]]]. reflexivity.
    + intros p [[=] | [[=] | [[= <-] | []]]]. reflexivity.
    + intros call [[=] | [[=] | [[=] | []]]].
Qed.
End HandlerMore.

(** ** The settings *)

Section ConfigMore.
Context {lib : PyLib}.
Variable py_int : pystr -> option Z.

(** X21.  A [WEBHOOK_SECRET] made of whitespace only.  app.py strips the
    setting, so the secret is empty and every request verifies, signed or
    not; qpp.py keeps the setting as it is, so there the secret counts and
    a request without [X-Signature] is refused. *)
Theorem blank_secret_disables_verification (env : environ) (s : pystr)
    (acfg : App.Config) :
  getenv env (u8 "WEBHOOK_SECRET") = Some s ->
  blank s = true ->
  App.load_config py_int env = Some acfg ->
  (forall raw hs, App.verify_signature acfg raw hs = Ok true)
  /\ (s <> [] ->
      forall raw hs,
        headers_get hs (u8 "X-Signature") [] = [] ->
        Qpp.verify_signature (Qpp.load_config env) raw hs = Ok false).
Proof.
  intros He Hb Hc. split.
  - intros raw hs. rewrite app_verify_with.
    unfold App.load_config in Hc.
    destruct (py_int (getenv_or env (u8 "MAX_REPLY_LEN") (u8 "1500"))); [| discriminate].
    destruct (py_int (getenv_or env (u8 "REQUEST_TIMEOUT") (u8 "30"))); [| discriminate].
    injection Hc as <-. cbn [App.WEBHOOK_SECRET].
    unfold getenv_or. rewrite He, (strip_blank s Hb). apply verify_disabled.
  - intros Hs raw hs Hh. rewrite qpp_verify_with.
    unfold Qpp.load_config. cbn [Qpp.WEBHOOK_SECRET].
    unfold getenv_or. rewrite He. now apply verify_missing_header.
Qed.
End ConfigMore.

(** ** The further properties at concrete requests *)

Lemma extracted_query_is_trimmed_witness :
  App.extract_user_query (lib := sample_lib) (PDict payload_text_and_message)
  = Ok (u8 "hello")
  /\ u8 "hello" <> []
  /\ starts_clean (u8 "hello") = true
  /\ ends_clean (u8 "hello") = true.
Proof.
  split; [reflexivity |].
  exact (proj1 (extracted_query_is_trimmed (lib := sample_lib)
                  (PDict payload_text_and_message) (u8 "hello")) eq_refl).
Defined.

Lemma extract_round_trip_witness :
  App.extract_user_query (lib := sample_lib) hello_payload = Ok (u8 "hello")
  /\ Qpp.extract_user_query (lib := sample_lib)
       (PDict [(u8 "nlpResult", PDict [(u8 "text", PStr (u8 "hello"))])])
     = Ok (u8 "hello").
Proof.
  split; [reflexivity |].
  exact (proj2 (extract_round_trip (lib := sample_lib) hello_payload (u8 "hello")
                  At_nlpResult_text (or_introl eq_refl))).
Defined.

Lemma verify_signature_is_sound_witness :
  App.verify_signature (lib := sample_lib) app_with_secret
    (wire_body post_hello_signed) (headers post_hello_signed) = Ok true
  /\ headers_get (headers post_hello_signed) (u8 "X-Signature") []
     = hexdigest (lib := sample_lib)
         (encode_utf8 (PyLib := sample_lib) (App.WEBHOOK_SECRET app_with_secret))
         (wire_body post_hello_signed).
Proof.
  assert (Hv : App.verify_signature (lib := sample_lib) app_with_secret
                 (wire_body post_hello_signed) (headers post_hello_signed) = Ok true)
    by (vm_compute; reflexivity).
  split; [exact Hv |].
  refine (proj1 (verify_signature_is_sound (lib := sample_lib)
                   app_with_secret qpp_with_secret _ _) _ Hv).
  discriminate.
Defined.

Lemma unsigned_request_is_stopped_witness :
  log_of (App.wechat_callback (lib := sample_lib) app_with_secret upstream_ok post_hello)
  = []
  /\ served_status
       (Qpp.wechat_callback (lib := sample_lib) qpp_with_secret upstream_ok post_hello)
     = 401%Z.
Proof.
  destruct (unsigned_request_is_stopped (lib := sample_lib) upstream_ok
              app_with_secret qpp_with_secret post_hello) as [Happ _].
  split; [| reflexivity].
  refine (proj1 (Happ _ _)); [discriminate |].
  intros H. apply (f_equal (@length codepoint)) in H. vm_compute in H. discriminate.
Defined.

Lemma completion_content_is_returned_witness :
  outcome (App.ask_openai app_with_key upstream_ok (u8 "hello")) = Ok (u8 "Sunny.")
  /\ outcome (Qpp.ask_openai qpp_with_key upstream_ok (u8 "hello")) = Ok (u8 "Sunny.").
Proof.
  destruct (completion_content_is_returned upstream_ok app_with_key qpp_with_key
              (u8 "hello") response_ok
              _ _ _ _ (u8 " Sunny. ") eq_refl eq_refl eq_refl eq_refl eq_refl)
    as [Happ Hqpp].
  split; [exact (Happ eq_refl eq_refl) | exact (Hqpp eq_refl)].
Defined.

Lemma incomplete_completion_is_no_reply_witness :
  lacks_content [(u8 "id", PStr (u8 "chatcmpl-2"))]
  /\ outcome (App.ask_openai app_with_key (upstream_answers completion_without_choices)
                (u8 "hello"))
     = Ok (u8 "（无回复）")
  /\ outcome (Qpp.ask_openai qpp_with_key (upstream_answers completion_without_choices)
                (u8 "hello"))
     = Ok (u8 "（无回复）").
Proof.
  assert (Hl : lacks_content [(u8 "id", PStr (u8 "chatcmpl-2"))]) by now left.
  destruct (incomplete_completion_is_no_reply
              (upstream_answers completion_without_choices) app_with_key qpp_with_key
              (u8 "hello") (response_with completion_without_choices)
              _ eq_refl eq_refl Hl)
    as [Happ Hqpp].
  split; [exact Hl |].
  split; [exact (Happ eq_refl eq_refl) | exact (Hqpp eq_refl)].
Defined.

Lemma unreadable_content_is_a_failure_witness :
  outcome (Qpp.ask_openai qpp_with_key (upstream_answers completion_null_content)
             (u8 "hello"))
  = Ok (u8 "调用大模型失败：'NoneType' object has no attribute 'strip'").
Proof.
  destruct (unreadable_content_is_a_failure
              (upstream_answers completion_null_content) app_with_key qpp_with_key
              (u8 "hello") (response_with completion_null_content)
              _ eq_refl eq_refl)
    as [Hcontent _].
  refine (proj2 (Hcontent _ _ _ PNone eq_refl eq_refl eq_refl _) eq_refl).
  intros s. discriminate.
Defined.

Lemma reply_text_is_never_empty_witness :
  outcome (Qpp.wechat_callback (lib := sample_lib) qpp_with_key upstream_ok post_hello)
  = Ok (qpp_reply (u8 "Sunny.") (u8 "hello"))
  /\ text_field (qpp_reply (u8 "Sunny.") (u8 "hello")) = Some (PStr (u8 "Sunny."))
  /\ u8 "Sunny." <> [].
Proof.
  split; [reflexivity |]. split; [reflexivity |].
  exact (proj2 (reply_text_is_never_empty (lib := sample_lib) upstream_ok
                  app_with_key qpp_with_key post_hello
                  (qpp_reply (u8 "Sunny.") (u8 "hello")) (u8 "Sunny.") eq_refl)
           eq_refl).
Defined.

Lemma qpp_echo_is_the_prompt_witness :
  outcome (Qpp.wechat_callback (lib := sample_lib) qpp_with_key upstream_ok post_hello)
  = Ok (qpp_reply (u8 "Sunny.") (u8 "hello"))
  /\ forall call,
       In (Ev_requests_post call)
         (log_of (Qpp.wechat_callback (lib := sample_lib) qpp_with_key upstream_ok
                    post_hello)) ->
       user_content call = Some (PStr (u8 "hello")).
Proof.
  split; [reflexivity |].
  destruct (qpp_echo_is_the_prompt (lib := sample_lib) upstream_ok qpp_with_key
              post_hello (qpp_reply (u8 "Sunny.") (u8 "hello")) eq_refl eq_refl)
    as (q & Hecho & _ & _ & _ & Hpost & _).
  assert (Hq : q = u8 "hello") by (symmetry; now injection Hecho).
  rewrite Hq in Hpost. exact Hpost.
Defined.

Lemma qpp_body_that_is_not_an_object_witness :
  json_loads (PyLib := values_lib) (wire_body post_list) = Some (PList [PInt 1])
  /\ served_status
       (Qpp.wechat_callback (lib := values_lib) qpp_defaults network_down post_list)
     = 500%Z
  /\ json_loads (PyLib := values_lib) (wire_body post_null) = Some PNone
  /\ exists r,
       outcome (Qpp.wechat_callback (lib := values_lib) qpp_defaults network_down
                  post_null) = Ok r
       /\ status r = 200%Z
       /\ meta_echo r = Some (PStr (u8 "{}")).
Proof.
  split; [reflexivity |]. split; [| split; [reflexivity |]].
  - refine (proj2 (proj2 (qpp_body_that_is_not_an_object (lib := values_lib)
                            network_down qpp_defaults post_list (PList [PInt 1])
                            eq_refl eq_refl) eq_refl _)).
    intros d. discriminate.
  - exact (proj1 (qpp_body_that_is_not_an_object (lib := values_lib)
                    network_down qpp_defaults post_null PNone eq_refl eq_refl)
             eq_refl).
Defined.

Lemma app_never_reads_the_body_witness :
  App.wechat_callback (lib := sample_lib) app_defaults network_down post_hello
  = App.wechat_callback (lib := sample_lib) app_defaults network_down post_true_parent.
Proof.
  exact (proj1 (app_never_reads_the_body (lib := sample_lib) network_down
                  app_defaults post_hello post_true_parent) eq_refl).
Defined.

Lemma blank_secret_disables_verification_witness :
  App.load_config sample_int env_blank_secret = Some app_defaults
  /\ App.verify_signature (lib := sample_lib) app_defaults
       (wire_body post_hello) (headers post_hello) = Ok true
  /\ Qpp.verify_signature (lib := sample_lib) (Qpp.load_config env_blank_secret)
       (wire_body post_hello) (headers post_hello) = Ok false.
Proof.
  destruct (blank_secret_disables_verification (lib := sample_lib) sample_int
              env_blank_secret (u8 "  ") app_defaults eq_refl eq_refl eq_refl)
    as [Happ Hqpp].
  split; [reflexivity |]. split; [apply Happ |].
  apply Hqpp; [discriminate | reflexivity].
Defined.
